(** * Foodgram API serializers (backend/api/serializers.py)

    A shallow embedding of the serializer layer of the recipe-sharing
    backend.  Model instances are records identified by their primary key,
    the relational tables are lists of rows kept in storage order, a Python
    [set] is a [gset], and every operation that can raise returns a
    [result].  Operations that write to storage take the database and give
    back the new one.  An operation that raises ends there, and its result
    then says nothing about the storage: the serializers open no
    transaction of their own, so whether what was written before the
    exception stays written is up to their caller. *)

From stdpp Require Import base option list gmap strings.
From Stdlib Require Import Ascii ZArith Lia.

Local Open Scope string_scope.
Local Open Scope Z_scope.

(** ** Exceptions and the error monad *)

Inductive exception : Type :=
| ValidationError (detail : string)   (* rest_framework.serializers.ValidationError *)
| Http404                             (* raised by get_object_or_404 *)
| KeyError (key : string)             (* dict.pop without a default *)
| TypeError
| ValueError (msg : string)
| AttributeError (attr : string)
| IntegrityError                      (* refused by a storage constraint *)
| DoesNotExist                        (* a related object that is not stored *)
| OutOfRange                          (* an integer the column does not take:
                                         OverflowError from SQLite, DataError
                                         from PostgreSQL, IntegrityError from
                                         the check of a positive column *)
| NegativeIndex.                      (* a queryset sliced with a negative
                                         bound: ValueError since Django 4.0,
                                         AssertionError before *)

Inductive result (A : Type) : Type :=
| Ok (a : A)
| Raise (e : exception).

Arguments Ok {A} a.
Arguments Raise {A} e.

Definition bind {A B : Type} (m : result A) (k : A → result B) : result B :=
  match m with
  | Ok a => k a
  | Raise e => Raise e
  end.

Notation "'do' x <- m ; k" := (bind m (fun x => k))
  (at level 10, x name, m at level 100, k at level 200).

Definition is_validation_error {A : Type} (r : result A) : Prop :=
  ∃ detail, r = Raise (ValidationError detail).

(** ** Stored entities (foodgram.models, users.models) *)

Record User : Type := {
  u_id : nat;
  u_email : string;
  u_username : string;
  u_first_name : string;
  u_last_name : string;
}.

Record Tag : Type := {
  t_id : nat;
  t_name : string;
  t_color : string;
  t_slug : string;
}.

Record Ingredient : Type := {
  i_id : nat;
  i_name : string;
  i_measurement_unit : string;
}.

(** A row of the IngredientAmount table: two foreign keys and the amount.
    The row's own primary key, which the storage hands out at each insert
    and no serializer reads or renders, is not part of the record: rows are
    compared by their columns. *)
Record IngredientAmount : Type := {
  ia_recipe : nat;
  ia_ingredient : nat;
  ia_amount : Z;
}.

Record Recipe : Type := {
  r_id : nat;
  r_name : string;
  r_image : string;
  r_text : string;
  r_cooking_time : Z;
  r_author : nat;
  r_last_editor : option nat;
}.

(** A row of FavouriteList or of ShoppingList: (user, recipe). *)
Record JoinRow : Type := {
  jr_user : nat;
  jr_recipe : nat;
}.

Record Subscription : Type := {
  s_user : nat;
  s_author : nat;
}.

(** The integers an integer column of the storage holds.  The column types
    are declared in foodgram/models.py and the storage is chosen in the
    settings, neither of which this development embeds, so the range is a
    parameter of the storage; every integer type Django offers holds at
    least the integers from 0 to 32767. *)
Record IntColumn : Type := {
  col_min : Z;
  col_max : Z;
  col_min_ok : col_min ≤ 0;
  col_max_ok : 32767 ≤ col_max;
}.

Definition holds (c : IntColumn) (z : Z) : bool :=
  (col_min c <=? z) && (z <=? col_max c).

(** The ranges of the two integer columns the serializers write, and of the
    bound the storage takes for the LIMIT of a query. *)
Record Limits : Type := {
  amount_column : IntColumn;
  cooking_time_column : IntColumn;
  limit_bound : IntColumn;
}.

(** The storage the serializers work on.  [recipe_tags] is the join table of
    the many-to-many field [Recipe.tags]; [next_recipe_id] is the sequence
    that hands out primary keys of new recipes.  The rows of the join tables
    are held without their surrogate key, which no serializer reads. *)
Record Database : Type := {
  limits : Limits;
  users : list User;
  tags : list Tag;
  ingredients : list Ingredient;
  recipes : list Recipe;
  recipe_tags : list (nat * nat);
  ingredient_amounts : list IngredientAmount;
  favourite_list : list JoinRow;
  shopping_list : list JoinRow;
  subscriptions : list Subscription;
  next_recipe_id : nat;
}.

(** ** The request and the serializer context *)

(** [request.user]: Django's [AnonymousUser] or a stored user, held by its
    primary key. *)
Inductive RequestUser : Type :=
| AnonymousUser
| Authenticated (pk : nat).

Definition is_anonymous (u : RequestUser) : bool :=
  match u with
  | AnonymousUser => true
  | Authenticated _ => false
  end.

(** The parts of the request the serializers read: the user, the path
    parameters [recipe_id] and [author_id] of [parser_context['kwargs']],
    and the query parameter [recipes_limit] ([None] when absent). *)
Record Request : Type := {
  user : RequestUser;
  kwargs_recipe_id : option nat;
  kwargs_author_id : option nat;
  query_recipes_limit : option string;
}.

(** [self.context]: the request, and whatever else the view put there. *)
Record Context : Type := {
  request : Request;
  extra : list (string * string);
}.

(** ** Queries *)

Definition exists_subscription (db : Database) (usr author : nat) : bool :=
  existsb (fun s => Nat.eqb (s_user s) usr && Nat.eqb (s_author s) author)
          (subscriptions db).

Definition exists_join (rows : list JoinRow) (usr recipe : nat) : bool :=
  existsb (fun r => Nat.eqb (jr_user r) usr && Nat.eqb (jr_recipe r) recipe) rows.

(** ** CustomUserSerializer *)

Record UserData : Type := {
  ud_email : string;
  ud_id : nat;
  ud_username : string;
  ud_first_name : string;
  ud_last_name : string;
  ud_is_subscribed : bool;
}.

Module CustomUserSerializer.

Definition get_is_subscribed (ctx : Context) (db : Database) (obj : User) : bool :=
    match user (request ctx) with
    | AnonymousUser => false
    | Authenticated usr => exists_subscription db usr (u_id obj)
    end.

Definition data (ctx : Context) (db : Database) (obj : User) : UserData :=
    {| ud_email := u_email obj;
       ud_id := u_id obj;
       ud_username := u_username obj;
       ud_first_name := u_first_name obj;
       ud_last_name := u_last_name obj;
       ud_is_subscribed := get_is_subscribed ctx db obj |}.

End CustomUserSerializer.

(** ** TagSerializer, IngredientAmountShowSerializer, RecipeReadOnlySerializer *)

Record TagData : Type := {
  td_id : nat;
  td_name : string;
  td_color : string;
  td_slug : string;
}.

Module TagSerializer.

Definition data (t : Tag) : TagData :=
    {| td_id := t_id t; td_name := t_name t;
       td_color := t_color t; td_slug := t_slug t |}.

End TagSerializer.

(** A rendered ingredient line; a field is [None] where the output has
    null. *)
Record IngredientAmountData : Type := {
  iad_id : option nat;
  iad_name : option string;
  iad_measurement_unit : option string;
  iad_amount : Z;
}.

Module IngredientAmountShowSerializer.

(** The three read-only fields follow the foreign key [ingredient] by a
    dotted source; when the ingredient is not stored the framework catches
    the lookup's DoesNotExist and renders each of them as null. *)
Definition data (db : Database) (row : IngredientAmount) : IngredientAmountData :=
  let ingredient :=
    find (fun i => Nat.eqb (i_id i) (ia_ingredient row)) (ingredients db) in
  {| iad_id := i_id <$> ingredient;
     iad_name := i_name <$> ingredient;
     iad_measurement_unit := i_measurement_unit <$> ingredient;
     iad_amount := ia_amount row |}.

End IngredientAmountShowSerializer.

(** Modelled from the spec: the image codec (api/fields.py, which this
    development does not embed) turns the stored image into what the client
    sees; the stored reference is taken as that representation. *)
Definition Base64ImageField_to_representation (image : string) : string := image.

Record RecipeReadOnlyData : Type := {
  rro_id : nat;
  rro_name : string;
  rro_image : string;
  rro_cooking_time : Z;
}.

Module RecipeReadOnlySerializer.

Definition data (obj : Recipe) : RecipeReadOnlyData :=
    {| rro_id := r_id obj;
       rro_name := r_name obj;
       rro_image := Base64ImageField_to_representation (r_image obj);
       rro_cooking_time := r_cooking_time obj |}.

End RecipeReadOnlySerializer.

(** ** RecipeViewSerializer *)

Record RecipeViewData : Type := {
  rv_id : nat;
  rv_tags : list TagData;
  rv_author : option UserData;
  rv_ingredients : list IngredientAmountData;
  rv_is_favorited : bool;
  rv_is_in_shopping_cart : bool;
  rv_name : string;
  rv_image : string;
  rv_text : string;
  rv_cooking_time : Z;
}.

(** [obj.tags.all()]: the stored tags linked to the recipe. *)
Definition recipe_tag_ids (db : Database) (recipe : nat) : list nat :=
  snd <$> filter (fun row => fst row = recipe) (recipe_tags db).

Definition tags_of (db : Database) (recipe : nat) : list Tag :=
  filter (fun t => t_id t ∈ recipe_tag_ids db recipe) (tags db).

(** [IngredientAmount.objects.filter(recipe=obj)]. *)
Definition amounts_of (db : Database) (recipe : nat) : list IngredientAmount :=
  filter (fun row => ia_recipe row = recipe) (ingredient_amounts db).

Module RecipeViewSerializer.

Definition get_ingredients (db : Database) (obj : Recipe)
  : list IngredientAmountData :=
  IngredientAmountShowSerializer.data db <$> amounts_of db (r_id obj).

Definition get_is_favorited (ctx : Context) (db : Database) (obj : Recipe) : bool :=
    match user (request ctx) with
    | AnonymousUser => false
    | Authenticated usr => exists_join (favourite_list db) usr (r_id obj)
    end.

Definition get_is_in_shopping_cart (ctx : Context) (db : Database) (obj : Recipe) : bool :=
    match user (request ctx) with
    | AnonymousUser => false
    | Authenticated usr => exists_join (shopping_list db) usr (r_id obj)
    end.

(** The nested [author] is rendered as null when the author is not stored:
    the framework catches the DoesNotExist of a field's attribute lookup. *)
Definition data (ctx : Context) (db : Database) (obj : Recipe) : RecipeViewData :=
  let author := find (fun u => Nat.eqb (u_id u) (r_author obj)) (users db) in
  {| rv_id := r_id obj;
     rv_tags := TagSerializer.data <$> tags_of db (r_id obj);
     rv_author := CustomUserSerializer.data ctx db <$> author;
     rv_ingredients := get_ingredients db obj;
     rv_is_favorited := get_is_favorited ctx db obj;
     rv_is_in_shopping_cart := get_is_in_shopping_cart ctx db obj;
     rv_name := r_name obj;
     rv_image := Base64ImageField_to_representation (r_image obj);
     rv_text := r_text obj;
     rv_cooking_time := r_cooking_time obj |}.

End RecipeViewSerializer.

(** ** Python values met by the validators *)

(** What a field validator may be handed.  [bool] is a subclass of [int] in
    Python, so [isinstance(True, int)] holds and [True <= 0] compares 1. *)
Inductive PyValue : Type :=
| PyNone
| PyBool (b : bool)
| PyInt (z : Z)
| PyStr (s : string).

Definition isinstance_int (v : PyValue) : bool :=
  match v with
  | PyBool _ | PyInt _ => true
  | PyNone | PyStr _ => false
  end.

(** The integer an [int] instance stands for. *)
Definition int_value (v : PyValue) : option Z :=
  match v with
  | PyInt z => Some z
  | PyBool b => Some (if b then 1 else 0)
  | PyNone | PyStr _ => None
  end.

(** ** Validated data of the recipe write serializer *)

(** An entry of the validated [ingredients] list: the primary-key field has
    already resolved [id] to a stored ingredient. *)
Record IngredientEntry : Type := {
  ie_id : Ingredient;
  ie_amount : Z;
}.

(** [len(set(...))] over model instances, which hash and compare by primary
    key. *)
Definition len_set (pks : list nat) : nat :=
  size (list_to_set pks : gset nat).

(** [validated_data]: a dict, so every key may be missing.  [author] and
    [last_editor] are not fields of the serializer; they are there only when
    the caller of [save] passed them. *)
Record ValidatedData : Type := {
  vd_tags : option (list Tag);
  vd_ingredients : option (list IngredientEntry);
  vd_image : option string;
  vd_name : option string;
  vd_text : option string;
  vd_cooking_time : option Z;
  vd_author : option RequestUser;
  vd_last_editor : option RequestUser;
}.

(** [dict.pop(key)] without a default. *)
Definition pop {A : Type} (key : string) (entry : option A) : result A :=
  match entry with
  | Some a => Ok a
  | None => Raise (KeyError key)
  end.

(** ** Storage operations used by the write path *)

Definition set_recipes (db : Database) (rs : list Recipe) (next : nat) : Database :=
  {| limits := limits db;
     users := users db; tags := tags db; ingredients := ingredients db;
     recipes := rs;
     recipe_tags := recipe_tags db;
     ingredient_amounts := ingredient_amounts db;
     favourite_list := favourite_list db;
     shopping_list := shopping_list db;
     subscriptions := subscriptions db;
     next_recipe_id := next |}.

Definition set_recipe_tags (db : Database) (rows : list (nat * nat)) : Database :=
  {| limits := limits db;
     users := users db; tags := tags db; ingredients := ingredients db;
     recipes := recipes db;
     recipe_tags := rows;
     ingredient_amounts := ingredient_amounts db;
     favourite_list := favourite_list db;
     shopping_list := shopping_list db;
     subscriptions := subscriptions db;
     next_recipe_id := next_recipe_id db |}.

Definition set_ingredient_amounts (db : Database) (rows : list IngredientAmount)
  : Database :=
  {| limits := limits db;
     users := users db; tags := tags db; ingredients := ingredients db;
     recipes := recipes db;
     recipe_tags := recipe_tags db;
     ingredient_amounts := rows;
     favourite_list := favourite_list db;
     shopping_list := shopping_list db;
     subscriptions := subscriptions db;
     next_recipe_id := next_recipe_id db |}.

(** Assigning to a foreign key to User: Django refuses anything that is not
    a User instance, [AnonymousUser] included. *)
Definition assign_user (u : RequestUser) : result nat :=
  match u with
  | Authenticated pk => Ok pk
  | AnonymousUser => Raise (ValueError "must be a User instance")
  end.

(** [IngredientAmount.objects.create(recipe=, ingredient=, amount=)]: the
    insert is refused when the amount does not fit the column. *)
Definition IngredientAmount_objects_create
  (db : Database) (recipe : nat) (ingredient : Ingredient) (amount : Z)
  : result Database :=
  if holds (amount_column (limits db)) amount
  then Ok (set_ingredient_amounts db
             (ingredient_amounts db ++
              [{| ia_recipe := recipe; ia_ingredient := i_id ingredient;
                  ia_amount := amount |}]))
  else Raise OutOfRange.

(** Modelled from the spec: the relation [Recipe.ingredients]
    (foodgram/models.py, which this development does not embed) runs through
    the IngredientAmount table, and [recipe.ingredients.clear()] deletes
    every ingredient-amount row of the recipe. *)
Definition ingredients_clear (db : Database) (recipe : nat) : Database :=
  set_ingredient_amounts db
    (filter (fun row => ia_recipe row ≠ recipe) (ingredient_amounts db)).

(** [recipe.tags.set(objs)] as Django's related manager does it: links to
    tags that are not among [objs] are removed, links that are already there
    are kept, and each new tag is linked once. *)
Definition tags_set (db : Database) (recipe : nat) (objs : list Tag) : Database :=
  let old_ids := recipe_tag_ids db recipe in
  let new_ids := t_id <$> objs in
  let kept := filter (fun row => fst row ≠ recipe ∨ snd row ∈ new_ids) (recipe_tags db) in
  let added := remove_dups (filter (fun pk => pk ∉ old_ids) new_ids) in
  set_recipe_tags db (kept ++ ((fun pk => (recipe, pk)) <$> added)).

(** Modelled from the spec: the Recipe table (foodgram/models.py, which this
    development does not embed).  A recipe has an owning author and a
    cooking time; a row without one of them is refused by storage, and so
    is a cooking time that does not fit its column.  Text columns that are
    not given are stored empty, and the primary key comes from the table's
    sequence. *)
Definition Recipe_objects_create
  (db : Database) (image : string) (name text : option string)
  (cooking_time : option Z) (author last_editor : option RequestUser)
  : result (Database * Recipe) :=
  do author_pk <- match author with
                  | Some u => do pk <- assign_user u; Ok (Some pk)
                  | None => Ok None
                  end;
  do editor_pk <- match last_editor with
                  | Some u => do pk <- assign_user u; Ok (Some pk)
                  | None => Ok None
                  end;
  match author_pk, cooking_time with
  | Some a, Some ct =>
      let r := {| r_id := next_recipe_id db;
                  r_name := default "" name;
                  r_image := image;
                  r_text := default "" text;
                  r_cooking_time := ct;
                  r_author := a;
                  r_last_editor := editor_pk |} in
      if holds (cooking_time_column (limits db)) ct
      then Ok (set_recipes db (recipes db ++ [r]) (S (next_recipe_id db)), r)
      else Raise OutOfRange
  | _, _ => Raise IntegrityError
  end.

(** [ModelSerializer.update] followed by [instance.save()]: every remaining
    entry of [validated_data] is set on the instance, and the instance
    replaces the stored row with its primary key (it is inserted when there
    is none).  The write is refused when the cooking time does not fit its
    column. *)
Definition set_attrs (instance : Recipe) (last_editor : option nat)
  (image name text : option string) (cooking_time : option Z) (author : option nat)
  : Recipe :=
  {| r_id := r_id instance;
     r_name := default (r_name instance) name;
     r_image := default (r_image instance) image;
     r_text := default (r_text instance) text;
     r_cooking_time := default (r_cooking_time instance) cooking_time;
     r_author := default (r_author instance) author;
     r_last_editor := last_editor |}.

Definition save_row (db : Database) (instance : Recipe) : Database :=
  if existsb (fun r => Nat.eqb (r_id r) (r_id instance)) (recipes db)
  then set_recipes db
         ((fun r => if Nat.eqb (r_id r) (r_id instance) then instance else r)
            <$> recipes db)
         (next_recipe_id db)
  else set_recipes db (recipes db ++ [instance]) (next_recipe_id db).

Definition Recipe_save (db : Database) (instance : Recipe) : result Database :=
  if holds (cooking_time_column (limits db)) (r_cooking_time instance)
  then Ok (save_row db instance)
  else Raise OutOfRange.

(** ** RecipeCreateUpdateSerializer *)

Module RecipeCreateUpdateSerializer.

Fixpoint check_amounts (data : list IngredientEntry) : result unit :=
  match data with
  | [] => Ok tt
  | ingredient :: rest =>
      if ie_amount ingredient <=? 0
      then Raise (ValidationError "Количество должно быть больше нуля.")
      else check_amounts rest
  end.

Definition validate_ingredients (data : list IngredientEntry)
  : result (list IngredientEntry) :=
  if bool_decide (data = [])
  then Raise (ValidationError "Нужен хотя бы один ингредиент.")
  else if negb (Nat.eqb (length data) (len_set ((fun i => i_id (ie_id i)) <$> data)))
  then Raise (ValidationError "Ингредиенты должы быть уникальными.")
  else do _u <- check_amounts data; Ok data.

Definition validate_tags (data : list Tag) : result (list Tag) :=
  if bool_decide (data = [])
  then Raise (ValidationError "Нужен хотя бы один тег.")
  else if negb (Nat.eqb (length data) (len_set (t_id <$> data)))
  then Raise (ValidationError "Теги должны быть уникальными.")
  else Ok data.

Definition validate_cooking_time (data : PyValue) : result PyValue :=
  if negb (isinstance_int data)
  then Raise (ValidationError "Неверный формат, ожидается целое позитивное число.")
  else match int_value data with
       | Some z =>
           if z <=? 0
           then Raise (ValidationError "Минимальное время готовки должно быть больше нуля")
           else Ok data
       | None => Raise TypeError
       end.

Fixpoint add_ingredients (db : Database) (ingredients : list IngredientEntry)
  (recipe : nat) : result Database :=
  match ingredients with
  | [] => Ok db
  | ing :: rest =>
      do db1 <- IngredientAmount_objects_create db recipe (ie_id ing) (ie_amount ing);
      add_ingredients db1 rest recipe
  end.

Definition create (db : Database) (validated_data : ValidatedData)
  : result (Database * Recipe) :=
  do ingredients <- pop "ingredients" (vd_ingredients validated_data);
  do tags <- pop "tags" (vd_tags validated_data);
  do image <- pop "image" (vd_image validated_data);
  do created <- Recipe_objects_create db image
                  (vd_name validated_data) (vd_text validated_data)
                  (vd_cooking_time validated_data)
                  (vd_author validated_data) (vd_last_editor validated_data);
  let new_recipe := snd created in
  do db1 <- add_ingredients (fst created) ingredients (r_id new_recipe);
  let db2 := tags_set db1 (r_id new_recipe) tags in
  Ok (db2, new_recipe).

Definition update (ctx : Context) (db : Database) (instance : Recipe)
  (validated_data : ValidatedData) : result (Database * Recipe) :=
  do last_editor <- assign_user (default (user (request ctx))
                                         (vd_last_editor validated_data));
  do tags_data <- pop "tags" (vd_tags validated_data);
  do ingredients <- pop "ingredients" (vd_ingredients validated_data);
  do author <- match vd_author validated_data with
               | Some u => do pk <- assign_user u; Ok (Some pk)
               | None => Ok None
               end;
  let instance' := set_attrs instance (Some last_editor)
                     (vd_image validated_data) (vd_name validated_data)
                     (vd_text validated_data) (vd_cooking_time validated_data)
                     author in
  do db1 <- Recipe_save db instance';
  let db2 := if bool_decide (tags_data = []) then db1
             else tags_set db1 (r_id instance') tags_data in
  do db3 <- if bool_decide (ingredients = []) then Ok db2
            else add_ingredients (ingredients_clear db2 (r_id instance'))
                   ingredients (r_id instance');
  Ok (db3, instance').

Definition to_representation (ctx : Context) (db : Database) (instance : Recipe)
  : RecipeViewData :=
  RecipeViewSerializer.data {| request := request ctx; extra := [] |} db instance.

End RecipeCreateUpdateSerializer.

(** ** FavouriteListSerializer and ShoppingListSerializer *)

(** The two membership tables; [Meta.model] of a serializer names one. *)
Inductive JoinModel : Type :=
| FavouriteList
| ShoppingList.

Definition objects (model : JoinModel) (db : Database) : list JoinRow :=
  match model with
  | FavouriteList => favourite_list db
  | ShoppingList => shopping_list db
  end.

Definition set_objects (model : JoinModel) (db : Database) (rows : list JoinRow)
  : Database :=
  {| limits := limits db;
     users := users db; tags := tags db; ingredients := ingredients db;
     recipes := recipes db;
     recipe_tags := recipe_tags db;
     ingredient_amounts := ingredient_amounts db;
     favourite_list := match model with
                       | FavouriteList => rows
                       | ShoppingList => favourite_list db
                       end;
     shopping_list := match model with
                      | FavouriteList => shopping_list db
                      | ShoppingList => rows
                      end;
     subscriptions := subscriptions db;
     next_recipe_id := next_recipe_id db |}.

(** [get_object_or_404(Recipe, id=...)]; a missing path parameter matches no
    row. *)
Definition get_recipe_or_404 (db : Database) (pk : option nat) : result Recipe :=
  match pk with
  | Some k =>
      match find (fun r => Nat.eqb (r_id r) k) (recipes db) with
      | Some r => Ok r
      | None => Raise Http404
      end
  | None => Raise Http404
  end.

Definition get_user_or_404 (db : Database) (pk : option nat) : result User :=
  match pk with
  | Some k =>
      match find (fun u => Nat.eqb (u_id u) k) (users db) with
      | Some u => Ok u
      | None => Raise Http404
      end
  | None => Raise Http404
  end.

(** Modelled from the spec: the uniqueness of (user, recipe) in the
    membership tables (foodgram/models.py, which this development does not
    embed): storage refuses a pair it already holds with an integrity
    error.  The owner must be a User instance, as for every foreign key. *)
Definition objects_create (model : JoinModel) (db : Database)
  (owner : RequestUser) (recipe : Recipe) : result (Database * JoinRow) :=
  do pk <- assign_user owner;
  if exists_join (objects model db) pk (r_id recipe)
  then Raise IntegrityError
  else
    let row := {| jr_user := pk; jr_recipe := r_id recipe |} in
    Ok (set_objects model db (objects model db ++ [row]), row).

Module FavouriteListSerializer.

Definition Meta_model : JoinModel := FavouriteList.

(** The linked recipe is rendered, not the join row. *)
Definition to_representation (db : Database) (instance : JoinRow)
  : result RecipeReadOnlyData :=
  do recipe <- match find (fun r => Nat.eqb (r_id r) (jr_recipe instance)) (recipes db) with
               | Some r => Ok r
               | None => Raise DoesNotExist
               end;
  Ok (RecipeReadOnlySerializer.data recipe).

(** [create] as the class body defines it; [model] is [self.Meta.model],
    which a subclass overrides. *)
Definition create_of (model : JoinModel) (ctx : Context) (db : Database)
  : result (Database * JoinRow) :=
  let recipe_id := kwargs_recipe_id (request ctx) in
  do recipe <- get_recipe_or_404 db recipe_id;
  let user := user (request ctx) in
  objects_create model db user recipe.

Definition create := create_of Meta_model.

End FavouriteListSerializer.

Module ShoppingListSerializer.

Definition Meta_model : JoinModel := ShoppingList.

Definition to_representation := FavouriteListSerializer.to_representation.
Definition create := FavouriteListSerializer.create_of Meta_model.

End ShoppingListSerializer.

(** ** Python's [int] on a query parameter *)

(** [int(s)] for a [str]: the number, or [None] where [int] raises
    ValueError.  [int] is a builtin of the language, not code of this
    repository, and what it accepts depends on the version of Python and of
    its Unicode tables.  The serializers are modelled for any such function,
    and a statement that needs a value of [int] says which. *)
Class PythonInt : Type := int_of_str : string → option Z.

(** [int(v)] where [v] is a query parameter: a [str], or [None] when the
    parameter is absent. *)
Definition py_int `{PythonInt} (v : option string) : result Z :=
  match v with
  | None => Raise TypeError
  | Some s =>
      match int_of_str s with
      | Some z => Ok z
      | None => Raise (ValueError "invalid literal for int() with base 10")
      end
  end.

(** [qs[:stop]] on a queryset, evaluated: the queryset refuses a negative
    bound, and the storage refuses a bound beyond what it takes for the
    LIMIT of the query. *)
Definition slice_to {A : Type} (db : Database) (qs : list A) (stop : Z)
  : result (list A) :=
  if stop <? 0 then Raise NegativeIndex
  else if col_max (limit_bound (limits db)) <? stop then Raise OutOfRange
  else Ok (take (Z.to_nat stop) qs).

(** ** SubscriptionSerializer *)

Record SubscriptionData : Type := {
  sd_id : nat;
  sd_email : string;
  sd_username : string;
  sd_first_name : string;
  sd_last_name : string;
  sd_is_subscribed : bool;
  sd_recipes : list RecipeReadOnlyData;
  sd_recipes_count : nat;
}.

(** [author.foodgram_recipe_authors.all()]: the recipes the user authored. *)
Definition foodgram_recipe_authors (db : Database) (author : nat) : list Recipe :=
  filter (fun r => r_author r = author) (recipes db).

Module SubscriptionSerializer.

Definition get_recipes_count (db : Database) (obj : Subscription) : nat :=
  length (foodgram_recipe_authors db (s_author obj)).

Definition get_recipes `{PythonInt} (ctx : Context) (db : Database)
  (obj : Subscription) : result (list RecipeReadOnlyData) :=
  let recipes_limit := query_recipes_limit (request ctx) in
  do recipes_limit <- match py_int recipes_limit with
                      | Ok n => Ok (Some n)
                      | Raise TypeError | Raise (ValueError _) => Ok None
                      | Raise e => Raise e
                      end;
  let qs := foodgram_recipe_authors db (s_author obj) in
  do qs <- match recipes_limit with
           | Some n => if n =? 0 then Ok qs else slice_to db qs n
           | None => Ok qs
           end;
  Ok (RecipeReadOnlySerializer.data <$> qs).

(** The serializer itself ([ctx]) is not consulted. *)
Definition get_is_subscribed (ctx : Context) (db : Database) (obj : Subscription)
  : bool :=
  exists_subscription db (s_user obj) (s_author obj).

Definition get_user_and_author (ctx : Context) (db : Database)
  : result (RequestUser * User) :=
  do author <- get_user_or_404 db (kwargs_author_id (request ctx));
  let user := user (request ctx) in
  Ok (user, author).

(** [user == author]: a stored user equals the author when the primary keys
    agree; [AnonymousUser] equals no stored user. *)
Definition user_eq (usr : RequestUser) (author : User) : bool :=
  match usr with
  | Authenticated pk => Nat.eqb pk (u_id author)
  | AnonymousUser => false
  end.

(** [user.follower.filter(author=author).exists()]; [follower] is the
    reverse relation of [Subscription.user], which [AnonymousUser] lacks. *)
Definition follower_exists (db : Database) (usr : RequestUser) (author : User)
  : result bool :=
  match usr with
  | Authenticated pk => Ok (exists_subscription db pk (u_id author))
  | AnonymousUser => Raise (AttributeError "follower")
  end.

Definition validate (ctx : Context) (db : Database) : result (RequestUser * User) :=
  do ua <- get_user_and_author ctx db;
  let user := fst ua in
  let author := snd ua in
  if user_eq user author
  then Raise (ValidationError "Нельзя подписаться на себя!")
  else
    do following <- follower_exists db user author;
    if following
    then Raise (ValidationError "Вы уже подписаны на этого пользователя!")
    else Ok (user, author).

Definition data `{PythonInt} (ctx : Context) (db : Database) (obj : Subscription)
  : result SubscriptionData :=
  do author <- match find (fun u => Nat.eqb (u_id u) (s_author obj)) (users db) with
               | Some u => Ok u
               | None => Raise DoesNotExist
               end;
  do recipes <- get_recipes ctx db obj;
  Ok {| sd_id := u_id author;
        sd_email := u_email author;
        sd_username := u_username author;
        sd_first_name := u_first_name author;
        sd_last_name := u_last_name author;
        sd_is_subscribed := get_is_subscribed ctx db obj;
        sd_recipes := recipes;
        sd_recipes_count := get_recipes_count db obj |}.

End SubscriptionSerializer.

(** ** Sample data *)

Module Sample.

(** One function of that class, for the examples.  It agrees with [int] on
    the strings the examples use: an optional minus sign followed by ASCII
    digits is read as the number written, and a word such as [many] is
    refused.  The other spellings [int] accepts (blanks around the number, a
    plus sign, underscores between digits, decimal digits of other scripts)
    are refused here, and no example uses them. *)
Fixpoint digits (acc : Z) (l : list ascii) : option Z :=
  match l with
  | [] => Some acc
  | c :: l' =>
      let n := Z.of_nat (nat_of_ascii c) in
      if (48 <=? n) && (n <=? 57) then digits (10 * acc + (n - 48)) l' else None
  end.

Definition int : PythonInt :=
  fun s =>
    match String.list_ascii_of_string s with
    | [] => None
    | c :: l =>
        if Ascii.eqb c "-"%char
        then match l with
             | [] => None
             | _ => Z.opp <$> digits 0 l
             end
        else digits 0 (c :: l)
    end.

(** A storage whose integers are the signed 64-bit ones. *)
Definition int64 : IntColumn :=
  {| col_min := -9223372036854775808;
     col_max := 9223372036854775807;
     col_min_ok := ltac:(lia);
     col_max_ok := ltac:(lia) |}.

Definition alice : User :=
  {| u_id := 1; u_email := "alice@example.org"; u_username := "alice";
     u_first_name := "Alice"; u_last_name := "A" |}.
Definition bob : User :=
  {| u_id := 2; u_email := "bob@example.org"; u_username := "bob";
     u_first_name := "Bob"; u_last_name := "B" |}.

Definition breakfast : Tag :=
  {| t_id := 1; t_name := "breakfast"; t_color := "#E26C2D"; t_slug := "breakfast" |}.
Definition dinner : Tag :=
  {| t_id := 2; t_name := "dinner"; t_color := "#8775D2"; t_slug := "dinner" |}.

Definition flour : Ingredient :=
  {| i_id := 1; i_name := "flour"; i_measurement_unit := "g" |}.
Definition milk : Ingredient :=
  {| i_id := 2; i_name := "milk"; i_measurement_unit := "ml" |}.

Definition pancakes : Recipe :=
  {| r_id := 1; r_name := "pancakes"; r_image := "recipes/pancakes.png";
     r_text := "mix and fry"; r_cooking_time := 20; r_author := 1;
     r_last_editor := None |}.
Definition porridge : Recipe :=
  {| r_id := 2; r_name := "porridge"; r_image := "recipes/porridge.png";
     r_text := "boil"; r_cooking_time := 15; r_author := 1;
     r_last_editor := None |}.

Definition bob_follows_alice : Subscription := {| s_user := 2; s_author := 1 |}.

(** Alice wrote two recipes; Bob follows Alice, has pancakes among his
    favourites and porridge in his shopping cart. *)
Definition db : Database :=
  {| limits := {| amount_column := int64; cooking_time_column := int64;
                  limit_bound := int64 |};
     users := [alice; bob];
     tags := [breakfast; dinner];
     ingredients := [flour; milk];
     recipes := [pancakes; porridge];
     recipe_tags := [(1, 1); (2, 1)]%nat;
     ingredient_amounts :=
       [ {| ia_recipe := 1; ia_ingredient := 1; ia_amount := 200 |};
         {| ia_recipe := 2; ia_ingredient := 2; ia_amount := 300 |} ];
     favourite_list := [ {| jr_user := 2; jr_recipe := 1 |} ];
     shopping_list := [ {| jr_user := 2; jr_recipe := 2 |} ];
     subscriptions := [ bob_follows_alice ];
     next_recipe_id := 3 |}.

Definition req (u : RequestUser) : Request :=
  {| user := u; kwargs_recipe_id := None; kwargs_author_id := None;
     query_recipes_limit := None |}.

Definition ctx (u : RequestUser) : Context :=
  {| request := req u; extra := [] |}.

Definition ctx_limit (u : RequestUser) (limit : string) : Context :=
  {| request := {| user := u; kwargs_recipe_id := None; kwargs_author_id := None;
                   query_recipes_limit := Some limit |};
     extra := [] |}.

Definition ctx_recipe (u : RequestUser) (recipe_id : nat) : Context :=
  {| request := {| user := u; kwargs_recipe_id := Some recipe_id;
                   kwargs_author_id := None; query_recipes_limit := None |};
     extra := [] |}.

Definition ctx_author (u : RequestUser) (author_id : nat) : Context :=
  {| request := {| user := u; kwargs_recipe_id := None;
                   kwargs_author_id := Some author_id; query_recipes_limit := None |};
     extra := [] |}.

End Sample.

(** ** Notions the statements below use *)

(** The ingredient-amount row that [add_ingredients] creates for an entry. *)
Definition amount_row (recipe : nat) (e : IngredientEntry) : IngredientAmount :=
  {| ia_recipe := recipe; ia_ingredient := i_id (ie_id e); ia_amount := ie_amount e |}.

(** A payload as the update path needs it: tags and ingredients are there
    and pass their validators. *)
Definition validated_lists (vd : ValidatedData) (tags_data : list Tag)
  (ingredients : list IngredientEntry) : Prop :=
  vd_tags vd = Some tags_data ∧
  RecipeCreateUpdateSerializer.validate_tags tags_data = Ok tags_data ∧
  vd_ingredients vd = Some ingredients ∧
  RecipeCreateUpdateSerializer.validate_ingredients ingredients = Ok ingredients.

(** What a rendered line shows of an ingredient-amount row: the row's
    amount, and either the id, name and unit of the stored ingredient the
    row points to, or null in all three when no stored ingredient has that
    id. *)
Definition line_of (db : Database) (row : IngredientAmount)
  (line : IngredientAmountData) : Prop :=
  iad_amount line = ia_amount row ∧
  match iad_id line with
  | Some pk =>
      pk = ia_ingredient row ∧
      ∃ i, i ∈ ingredients db ∧ i_id i = pk ∧
           iad_name line = Some (i_name i) ∧
           iad_measurement_unit line = Some (i_measurement_unit i)
  | None =>
      iad_name line = None ∧ iad_measurement_unit line = None ∧
      ∀ i, i ∈ ingredients db → i_id i ≠ ia_ingredient row
  end.

(** The integers an update writes fit the storage: the cooking time the
    recipe is saved with (the payload's, or the instance's when the payload
    has none) fits its column, and so does each amount. *)
Definition fits_storage (db : Database) (instance : Recipe) (vd : ValidatedData)
  (ingredients : list IngredientEntry) : Prop :=
  holds (cooking_time_column (limits db))
    (default (r_cooking_time instance) (vd_cooking_time vd)) = true ∧
  Forall (fun e => holds (amount_column (limits db)) (ie_amount e) = true)
    ingredients.

Module SampleUpdate.

(** Bob edits pancakes: milk instead of flour, dinner instead of breakfast. *)
Definition payload : ValidatedData :=
  {| vd_tags := Some [Sample.dinner];
     vd_ingredients := Some [{| ie_id := Sample.milk; ie_amount := 1 |}];
     vd_image := None; vd_name := None; vd_text := None;
     vd_cooking_time := None; vd_author := None; vd_last_editor := None |}.

End SampleUpdate.

(** The storage an operation with a single write leaves behind: what can
    raise in it comes before the write, so when it raises the storage is as
    it was found.  It is also used to name the storage a successful run
    returns. *)
Definition storage_after {A : Type} (db : Database) (r : result (Database * A))
  : Database :=
  match r with
  | Ok (db', _) => db'
  | Raise _ => db
  end.

(** A viewer with no favourites and an empty shopping cart. *)
Definition fresh_viewer (db : Database) (viewer : RequestUser) : Prop :=
  match viewer with
  | AnonymousUser => True
  | Authenticated pk =>
      (∀ row, row ∈ favourite_list db → jr_user row ≠ pk) ∧
      (∀ row, row ∈ shopping_list db → jr_user row ≠ pk)
  end.

(** Referential integrity of the ingredient-amount rows: each belongs to a
    recipe whose key the sequence has already handed out. *)
Definition amounts_reference_recipes (db : Database) : Prop :=
  ∀ row, row ∈ ingredient_amounts db → (ia_recipe row < next_recipe_id db)%nat.

(** The storage with the two membership tables exchanged. *)
Definition swap_tables (db : Database) : Database :=
  {| limits := limits db;
     users := users db; tags := tags db; ingredients := ingredients db;
     recipes := recipes db;
     recipe_tags := recipe_tags db;
     ingredient_amounts := ingredient_amounts db;
     favourite_list := shopping_list db;
     shopping_list := favourite_list db;
     subscriptions := subscriptions db;
     next_recipe_id := next_recipe_id db |}.

Definition swap_result {A : Type} (r : result (Database * A)) : result (Database * A) :=
  match r with
  | Ok (db, a) => Ok (swap_tables db, a)
  | Raise e => Raise e
  end.

Module SampleCreate.

(** The payload {tags: [T1], ingredients: [{id: I1, amount: 2}],
    cooking_time: 10, name: X, image}, with the author the view adds. *)
Definition payload (t1 : Tag) (i1 : Ingredient) (image : string)
  (text : option string) (author : nat) : ValidatedData :=
  {| vd_tags := Some [t1];
     vd_ingredients := Some [{| ie_id := i1; ie_amount := 2 |}];
     vd_image := Some image;
     vd_name := Some "X";
     vd_text := text;
     vd_cooking_time := Some 10;
     vd_author := Some (Authenticated author);
     vd_last_editor := None |}.

(** Bob posts a recipe with milk, tagged dinner. *)
Definition bob_payload : ValidatedData :=
  payload Sample.dinner Sample.milk "recipes/x.png" None 2.

Definition created_recipe : Recipe :=
  {| r_id := 3; r_name := "X"; r_image := "recipes/x.png"; r_text := "";
     r_cooking_time := 10; r_author := 2; r_last_editor := None |}.

Definition created_db : Database :=
  storage_after Sample.db (RecipeCreateUpdateSerializer.create Sample.db bob_payload).

End SampleCreate.

Module SampleRuns.

(** Bob's update of pancakes, and what it leaves behind. *)
Definition updated_db : Database :=
  storage_after Sample.db
    (RecipeCreateUpdateSerializer.update (Sample.ctx (Authenticated 2)) Sample.db
       Sample.pancakes SampleUpdate.payload).

Definition updated_recipe : Recipe :=
  {| r_id := 1; r_name := "pancakes"; r_image := "recipes/pancakes.png";
     r_text := "mix and fry"; r_cooking_time := 20; r_author := 1;
     r_last_editor := Some 2%nat |}.

(** An update that renames the recipe and carries two empty lists. *)
Definition rename_payload : ValidatedData :=
  {| vd_tags := Some []; vd_ingredients := Some [];
     vd_image := None; vd_name := Some "crepes"; vd_text := None;
     vd_cooking_time := None; vd_author := None; vd_last_editor := None |}.

Definition renamed_db : Database :=
  storage_after Sample.db
    (RecipeCreateUpdateSerializer.update (Sample.ctx (Authenticated 2)) Sample.db
       Sample.pancakes rename_payload).

Definition renamed_recipe : Recipe :=
  {| r_id := 1; r_name := "crepes"; r_image := "recipes/pancakes.png";
     r_text := "mix and fry"; r_cooking_time := 20; r_author := 1;
     r_last_editor := Some 2%nat |}.

(** A payload without its tags. *)
Definition no_tags_payload : ValidatedData :=
  {| vd_tags := None;
     vd_ingredients := Some [{| ie_id := Sample.milk; ie_amount := 1 |}];
     vd_image := None; vd_name := None; vd_text := None;
     vd_cooking_time := None; vd_author := None; vd_last_editor := None |}.

(** The payload of Bob's update, handed to [save] with an anonymous
    author. *)
Definition anonymous_author_payload : ValidatedData :=
  {| vd_tags := Some [Sample.dinner];
     vd_ingredients := Some [{| ie_id := Sample.milk; ie_amount := 1 |}];
     vd_image := None; vd_name := None; vd_text := None;
     vd_cooking_time := None; vd_author := Some AnonymousUser;
     vd_last_editor := None |}.

(** The payload of Bob's update with an amount of 2^63, one more than the
    sample storage holds. *)
Definition huge_amount_payload : ValidatedData :=
  {| vd_tags := Some [Sample.dinner];
     vd_ingredients :=
       Some [{| ie_id := Sample.milk; ie_amount := 9223372036854775808 |}];
     vd_image := None; vd_name := None; vd_text := None;
     vd_cooking_time := None; vd_author := None; vd_last_editor := None |}.

(** Alice puts porridge among her favourites. *)
Definition alice_porridge : Context := Sample.ctx_recipe (Authenticated 1) 2.

Definition favourited_db : Database :=
  storage_after Sample.db (FavouriteListSerializer.create alice_porridge Sample.db).

Definition carted_db : Database :=
  storage_after Sample.db (ShoppingListSerializer.create alice_porridge Sample.db).

Definition alice_porridge_row : JoinRow := {| jr_user := 1; jr_recipe := 2 |}.

(** A storage where a row of pancakes points to an ingredient that is not
    stored. *)
Definition dangling_db : Database :=
  set_ingredient_amounts Sample.db
    (ingredient_amounts Sample.db
     ++ [{| ia_recipe := 1; ia_ingredient := 9; ia_amount := 5 |}]).

End SampleRuns.

(** * Properties *)

(** ** Helper lemmas *)

(** Closes a goal [is_validation_error r] once [r] has reduced to a raised
    validation error. *)
Ltac raised := eexists; reflexivity.

Lemma len_set_cons_in (x : nat) (l : list nat) :
  x ∈ l → len_set (x :: l) = len_set l.
Proof.
  intros Hx. unfold len_set. rewrite list_to_set_cons.
  f_equal. apply subseteq_union_1_L.
  apply singleton_subseteq_l, elem_of_list_to_set, Hx.
Qed.

Lemma len_set_cons_notin (x : nat) (l : list nat) :
  x ∉ l → len_set (x :: l) = S (len_set l).
Proof.
  intros Hx. unfold len_set. rewrite list_to_set_cons.
  rewrite size_union.
  - by rewrite size_singleton.
  - apply disjoint_singleton_l. by rewrite elem_of_list_to_set.
Qed.

Lemma len_set_le (l : list nat) : (len_set l ≤ length l)%nat.
Proof.
  induction l as [|x l IH]; [done|].
  destruct (decide (x ∈ l)) as [Hx|Hx].
  - rewrite (len_set_cons_in _ _ Hx). simpl. lia.
  - rewrite (len_set_cons_notin _ _ Hx). simpl. lia.
Qed.

Lemma len_set_NoDup (l : list nat) : len_set l = length l ↔ NoDup l.
Proof.
  split.
  - induction l as [|x l IH]; intros Hlen; [constructor|].
    destruct (decide (x ∈ l)) as [Hx|Hx].
    + rewrite (len_set_cons_in _ _ Hx) in Hlen. simpl in Hlen.
      pose proof (len_set_le l). lia.
    + rewrite (len_set_cons_notin _ _ Hx) in Hlen. simpl in Hlen.
      constructor; [done|]. apply IH. lia.
  - intros Hnd. unfold len_set. by apply size_list_to_set.
Qed.

Lemma check_amounts_nonpositive (data : list IngredientEntry) (e : IngredientEntry) :
  e ∈ data → ie_amount e ≤ 0 →
  is_validation_error (RecipeCreateUpdateSerializer.check_amounts data).
Proof.
  intros Hin Hle. induction data as [|x data IH]; [by apply elem_of_nil in Hin|].
  simpl. destruct (Z.leb_spec (ie_amount x) 0) as [Hx|Hx].
  - raised.
  - apply elem_of_cons in Hin as [->|Hin]; [lia|]. by apply IH.
Qed.

Lemma check_amounts_positive (data : list IngredientEntry) :
  Forall (fun e => 0 < ie_amount e) data →
  RecipeCreateUpdateSerializer.check_amounts data = Ok tt.
Proof.
  induction 1 as [|x data Hx _ IH]; [done|].
  simpl. destruct (Z.leb_spec (ie_amount x) 0); [lia|done].
Qed.

(** ** C1: anonymous viewers *)

(** C1.  When the request's user is anonymous, [is_subscribed] of the user
    serializer and [is_favorited] and [is_in_shopping_cart] of the recipe
    serializer are false, whatever the Subscription, FavouriteList and
    ShoppingList tables hold; so are the fields of every rendered user and
    recipe. *)
Theorem anonymous_flags_false (ctx : Context) (db : Database) (u : User) (r : Recipe) :
  is_anonymous (user (request ctx)) = true →
  CustomUserSerializer.get_is_subscribed ctx db u = false ∧
  RecipeViewSerializer.get_is_favorited ctx db r = false ∧
  RecipeViewSerializer.get_is_in_shopping_cart ctx db r = false ∧
  ud_is_subscribed (CustomUserSerializer.data ctx db u) = false ∧
  rv_is_favorited (RecipeViewSerializer.data ctx db r) = false ∧
  rv_is_in_shopping_cart (RecipeViewSerializer.data ctx db r) = false ∧
  (∀ author, rv_author (RecipeViewSerializer.data ctx db r) = Some author →
             ud_is_subscribed author = false).
Proof.
  intros Hanon.
  unfold RecipeViewSerializer.data, CustomUserSerializer.data,
    CustomUserSerializer.get_is_subscribed,
    RecipeViewSerializer.get_is_favorited,
    RecipeViewSerializer.get_is_in_shopping_cart.
  destruct (user (request ctx)) as [|pk]; [|discriminate Hanon].
  simpl. repeat split; try reflexivity.
  intros author Hauthor.
  destruct (find _ (users db)); simpl in Hauthor; [|discriminate Hauthor].
  by injection Hauthor as <-.
Qed.

Lemma anonymous_flags_false_witness :
  CustomUserSerializer.get_is_subscribed (Sample.ctx AnonymousUser) Sample.db Sample.alice = false ∧
  RecipeViewSerializer.get_is_favorited (Sample.ctx AnonymousUser) Sample.db Sample.pancakes = false ∧
  RecipeViewSerializer.get_is_in_shopping_cart (Sample.ctx AnonymousUser) Sample.db Sample.pancakes = false ∧
  ud_is_subscribed (CustomUserSerializer.data (Sample.ctx AnonymousUser) Sample.db Sample.alice) = false ∧
  rv_is_favorited
    (RecipeViewSerializer.data (Sample.ctx AnonymousUser) Sample.db Sample.pancakes)
  = false ∧
  rv_is_in_shopping_cart
    (RecipeViewSerializer.data (Sample.ctx AnonymousUser) Sample.db Sample.pancakes)
  = false ∧
  (∀ author,
     rv_author
       (RecipeViewSerializer.data (Sample.ctx AnonymousUser) Sample.db Sample.pancakes)
     = Some author →
     ud_is_subscribed author = false).
Proof.
  apply (anonymous_flags_false (Sample.ctx AnonymousUser) Sample.db
           Sample.alice Sample.pancakes).
  reflexivity.
Defined.

(** ** C2: recipe write validation *)

(** C2.  The field validators of the recipe write serializer reject, each
    with a validation error, an empty ingredient list, a list that repeats
    an ingredient id, a list with an entry whose amount is zero or negative,
    an empty tag list, a tag list that repeats a tag id, and a cooking time
    that is not an integer or is zero or negative.  They accept one
    ingredient with amount 1, one tag, and a positive cooking time. *)
Theorem recipe_write_validation :
  is_validation_error (RecipeCreateUpdateSerializer.validate_ingredients []) ∧
  (∀ data, ¬ NoDup ((fun i => i_id (ie_id i)) <$> data) →
     is_validation_error (RecipeCreateUpdateSerializer.validate_ingredients data)) ∧
  (∀ data e, e ∈ data → ie_amount e ≤ 0 →
     is_validation_error (RecipeCreateUpdateSerializer.validate_ingredients data)) ∧
  is_validation_error (RecipeCreateUpdateSerializer.validate_tags []) ∧
  (∀ data, ¬ NoDup (t_id <$> data) →
     is_validation_error (RecipeCreateUpdateSerializer.validate_tags data)) ∧
  (∀ v, isinstance_int v = false →
     is_validation_error (RecipeCreateUpdateSerializer.validate_cooking_time v)) ∧
  (∀ v z, int_value v = Some z → z ≤ 0 →
     is_validation_error (RecipeCreateUpdateSerializer.validate_cooking_time v)) ∧
  (∀ i t ct, 0 < ct →
     RecipeCreateUpdateSerializer.validate_ingredients
       [{| ie_id := i; ie_amount := 1 |}] = Ok [{| ie_id := i; ie_amount := 1 |}] ∧
     RecipeCreateUpdateSerializer.validate_tags [t] = Ok [t] ∧
     RecipeCreateUpdateSerializer.validate_cooking_time (PyInt ct) = Ok (PyInt ct)).
Proof.
  unfold RecipeCreateUpdateSerializer.validate_ingredients,
    RecipeCreateUpdateSerializer.validate_tags,
    RecipeCreateUpdateSerializer.validate_cooking_time.
  repeat apply conj.
  - raised.
  - intros data Hdup. case_bool_decide; [raised|].
    destruct (Nat.eqb_spec (length data)
                (len_set ((fun i => i_id (ie_id i)) <$> data))) as [Heq|Hne];
      simpl; [|raised].
    exfalso. apply Hdup, len_set_NoDup. by rewrite length_fmap.
  - intros data e Hin Hle. case_bool_decide; [raised|].
    destruct (negb _); [raised|].
    destruct (check_amounts_nonpositive data e Hin Hle) as [d ->].
    raised.
  - raised.
  - intros data Hdup. case_bool_decide; [raised|].
    destruct (Nat.eqb_spec (length data) (len_set (t_id <$> data))) as [Heq|Hne];
      simpl; [|raised].
    exfalso. apply Hdup, len_set_NoDup. by rewrite length_fmap.
  - intros v ->. raised.
  - intros v z Hv Hle. destruct (isinstance_int v); simpl; [|raised].
    rewrite Hv. destruct (Z.leb_spec z 0); [|lia]. raised.
  - intros i t ct Hct.
    assert (Hone : ∀ pk : nat, len_set [pk] = 1%nat).
    { intros pk. apply (len_set_NoDup [pk]), NoDup_singleton. }
    repeat apply conj.
    + rewrite bool_decide_eq_false_2 by discriminate.
      simpl. rewrite Hone. reflexivity.
    + rewrite bool_decide_eq_false_2 by discriminate.
      simpl. rewrite Hone. reflexivity.
    + simpl. destruct (Z.leb_spec ct 0); [lia|done].
Qed.

Lemma recipe_write_validation_witness :
  is_validation_error
    (RecipeCreateUpdateSerializer.validate_ingredients
       [{| ie_id := Sample.flour; ie_amount := 1 |};
        {| ie_id := Sample.flour; ie_amount := 2 |}]) ∧
  is_validation_error
    (RecipeCreateUpdateSerializer.validate_ingredients
       [{| ie_id := Sample.flour; ie_amount := 0 |}]) ∧
  is_validation_error
    (RecipeCreateUpdateSerializer.validate_tags [Sample.dinner; Sample.dinner]) ∧
  is_validation_error
    (RecipeCreateUpdateSerializer.validate_cooking_time (PyStr "ten")) ∧
  is_validation_error
    (RecipeCreateUpdateSerializer.validate_cooking_time (PyInt (-5))) ∧
  RecipeCreateUpdateSerializer.validate_cooking_time (PyInt 10) = Ok (PyInt 10).
Proof.
  destruct recipe_write_validation
    as (_ & Hdup & Hamount & _ & Htags & Hnot_int & Hnonpos & Haccept).
  repeat apply conj.
  - apply Hdup. simpl. intros Hnd. apply NoDup_cons in Hnd as [Hnotin _].
    apply Hnotin. left.
  - apply (Hamount _ {| ie_id := Sample.flour; ie_amount := 0 |}); [left|reflexivity].
  - apply Htags. simpl. intros Hnd. apply NoDup_cons in Hnd as [Hnotin _].
    apply Hnotin. left.
  - apply Hnot_int. reflexivity.
  - apply (Hnonpos _ (-5)); [reflexivity|lia].
  - apply (Haccept Sample.flour Sample.dinner 10). lia.
Defined.

(** ** C3: update replaces ingredients and tags *)

Lemma set_ingredient_amounts_id (db : Database) :
  set_ingredient_amounts db (ingredient_amounts db) = db.
Proof. by destruct db. Qed.

Lemma add_ingredients_spec (db db' : Database) (ings : list IngredientEntry)
  (rid : nat) :
  RecipeCreateUpdateSerializer.add_ingredients db ings rid = Ok db'
  ↔ Forall (fun e => holds (amount_column (limits db)) (ie_amount e) = true) ings ∧
    db' = set_ingredient_amounts db
            (ingredient_amounts db ++ (amount_row rid <$> ings)).
Proof.
  revert db. induction ings as [|e ings IH]; intros db; simpl.
  - rewrite app_nil_r, set_ingredient_amounts_id. split.
    + intros [= <-]. by split.
    + by intros [_ ->].
  - unfold IngredientAmount_objects_create.
    destruct (holds _ (ie_amount e)) eqn:Hfit; simpl.
    + rewrite IH. simpl. unfold set_ingredient_amounts at 2. simpl.
      rewrite <- app_assoc. simpl. split.
      * intros [Hall ->]. split; [by constructor|done].
      * intros [Hall ->]. apply Forall_cons in Hall as [_ Hall]. by split.
    + split; [discriminate|].
      intros [Hall _]. apply Forall_cons in Hall as [Hfit' _]. congruence.
Qed.

Lemma add_ingredients_fits (db : Database) (ings : list IngredientEntry) (rid : nat) :
  Forall (fun e => holds (amount_column (limits db)) (ie_amount e) = true) ings →
  RecipeCreateUpdateSerializer.add_ingredients db ings rid
  = Ok (set_ingredient_amounts db
          (ingredient_amounts db ++ (amount_row rid <$> ings))).
Proof. intros Hall. by apply add_ingredients_spec. Qed.

Lemma elem_of_recipe_tag_ids (db : Database) (rid pk : nat) :
  pk ∈ recipe_tag_ids db rid ↔ (rid, pk) ∈ recipe_tags db.
Proof.
  unfold recipe_tag_ids. rewrite list_elem_of_fmap. split.
  - intros ([a b] & -> & Hin). apply list_elem_of_filter in Hin as [Hfst Hin].
    simpl in Hfst. by subst a.
  - intros Hin. exists (rid, pk). split; [done|].
    apply list_elem_of_filter. by split.
Qed.

Lemma tags_set_ids (db : Database) (rid : nat) (objs : list Tag) (pk : nat) :
  pk ∈ recipe_tag_ids (tags_set db rid objs) rid ↔ pk ∈ t_id <$> objs.
Proof.
  rewrite elem_of_recipe_tag_ids. unfold tags_set. simpl.
  rewrite elem_of_app, list_elem_of_filter. simpl. split.
  - intros [[[Hne|Hin] _]|Hadded]; [done|done|].
    apply list_elem_of_fmap in Hadded as (y & Heq & Hy).
    injection Heq as <-.
    apply elem_of_remove_dups, list_elem_of_filter in Hy. tauto.
  - intros Hin. destruct (decide (pk ∈ recipe_tag_ids db rid)) as [Hold|Hold].
    + left. split; [by right|]. by apply elem_of_recipe_tag_ids.
    + right. apply list_elem_of_fmap. exists pk. split; [done|].
      apply elem_of_remove_dups, list_elem_of_filter. by split.
Qed.

Lemma tags_set_other (db : Database) (rid : nat) (objs : list Tag) (other pk : nat) :
  other ≠ rid →
  pk ∈ recipe_tag_ids (tags_set db rid objs) other ↔ pk ∈ recipe_tag_ids db other.
Proof.
  intros Hne. rewrite !elem_of_recipe_tag_ids. unfold tags_set. simpl.
  rewrite elem_of_app, list_elem_of_filter. simpl. split.
  - intros [[_ Hin]|Hadded]; [done|].
    apply list_elem_of_fmap in Hadded as (y & Heq & _).
    by injection Heq as -> _.
  - intros Hin. left. split; [by left|done].
Qed.

Lemma save_row_stored (db : Database) (instance : Recipe) :
  instance ∈ recipes (save_row db instance) ∧
  (∀ r, r ∈ recipes (save_row db instance) → r_id r = r_id instance →
        r = instance).
Proof.
  unfold save_row.
  destruct (existsb _ (recipes db)) eqn:Hex; simpl.
  - split.
    + apply existsb_exists in Hex as (r & Hin & Heq).
      apply list_elem_of_fmap. exists r. rewrite Heq.
      split; [done|]. by apply list_elem_of_In.
    + intros r Hin Hid. apply list_elem_of_fmap in Hin as (r0 & -> & _).
      destruct (Nat.eqb_spec (r_id r0) (r_id instance)); [done|]. done.
  - split; [apply elem_of_app; right; left|].
    intros r Hin Hid. apply elem_of_app in Hin as [Hin|Hin].
    + exfalso. apply not_true_iff_false in Hex. apply Hex.
      apply existsb_exists. exists r. split; [by apply list_elem_of_In|].
      by apply Nat.eqb_eq.
    + by apply list_elem_of_singleton in Hin.
Qed.

Lemma filter_amounts_cleared (rows : list IngredientAmount) (rid : nat) :
  filter (fun row => ia_recipe row = rid)
         (filter (fun row => ia_recipe row ≠ rid) rows) = [].
Proof.
  induction rows as [|row rows IH]; [done|].
  destruct (decide (ia_recipe row = rid)) as [Heq|Hne].
  - rewrite (filter_cons_False (fun row => ia_recipe row ≠ rid)); [done|].
    by intros Hne.
  - rewrite (filter_cons_True (fun row => ia_recipe row ≠ rid)) by done.
    by rewrite filter_cons_False.
Qed.

Lemma filter_amount_rows (rid : nat) (ings : list IngredientEntry) :
  filter (fun row => ia_recipe row = rid) (amount_row rid <$> ings)
  = amount_row rid <$> ings.
Proof.
  induction ings as [|e ings IH]; [done|].
  rewrite fmap_cons, filter_cons_True by done. by rewrite IH.
Qed.

Lemma save_row_other_tables (db : Database) (instance : Recipe) :
  ingredient_amounts (save_row db instance) = ingredient_amounts db ∧
  recipe_tags (save_row db instance) = recipe_tags db.
Proof. unfold save_row. by destruct (existsb _ (recipes db)). Qed.

Lemma validate_tags_nonempty (data out : list Tag) :
  RecipeCreateUpdateSerializer.validate_tags data = Ok out → data ≠ [].
Proof. intros Hv ->. discriminate Hv. Qed.

Lemma validate_ingredients_nonempty (data out : list IngredientEntry) :
  RecipeCreateUpdateSerializer.validate_ingredients data = Ok out → data ≠ [].
Proof. intros Hv ->. discriminate Hv. Qed.

Lemma save_row_limits (db : Database) (instance : Recipe) :
  limits (save_row db instance) = limits db.
Proof. unfold save_row. by destruct (existsb _ (recipes db)). Qed.

(** What the storage holds once the instance is saved, its tags are set and
    its ingredient rows are cleared and added again. *)
Lemma replaced_state (db : Database) (saved : Recipe) (tags_data : list Tag)
  (ings : list IngredientEntry) :
  let rid := r_id saved in
  let base := ingredients_clear (tags_set (save_row db saved) rid tags_data) rid in
  let db' := set_ingredient_amounts base
               (ingredient_amounts base ++ (amount_row rid <$> ings)) in
  amounts_of db' rid = amount_row rid <$> ings ∧
  (∀ pk, pk ∈ recipe_tag_ids db' rid ↔ pk ∈ t_id <$> tags_data) ∧
  saved ∈ recipes db' ∧
  (∀ r, r ∈ recipes db' → r_id r = rid → r = saved).
Proof.
  intros rid base db'. subst db' base.
  destruct (save_row_other_tables db saved) as [Hamounts Htags].
  destruct (save_row_stored db saved) as [Hin Huniq].
  repeat apply conj.
  - unfold amounts_of, ingredients_clear, tags_set. simpl.
    rewrite filter_app, filter_amounts_cleared, filter_amount_rows. done.
  - intros pk. rewrite <- (tags_set_ids (save_row db saved) rid tags_data pk).
    rewrite !elem_of_recipe_tag_ids. done.
  - exact Hin.
  - exact Huniq.
Qed.

(** C3, amended.  An update succeeds when the payload carries a tag list and
    an ingredient list that pass their validators, the integers it writes
    fit the storage, the editor is a stored user and the payload names no
    anonymous author.  Afterwards the recipe's ingredient-amount rows are
    exactly one row per supplied entry, in order, whatever rows it had
    before; its tags are exactly the supplied ones; and the stored recipe
    names the editor as [last_editor].  The editor is the user handed to
    [save] as [last_editor], by default the request's user. *)
Theorem update_replaces_ingredients_and_tags
  (ctx : Context) (db : Database) (instance : Recipe) (vd : ValidatedData)
  (tags_data : list Tag) (ingredients : list IngredientEntry) (editor : nat) :
  validated_lists vd tags_data ingredients →
  fits_storage db instance vd ingredients →
  default (user (request ctx)) (vd_last_editor vd) = Authenticated editor →
  vd_author vd ≠ Some AnonymousUser →
  ∃ db' instance',
    RecipeCreateUpdateSerializer.update ctx db instance vd = Ok (db', instance') ∧
    r_id instance' = r_id instance ∧
    amounts_of db' (r_id instance) = amount_row (r_id instance) <$> ingredients ∧
    (∀ pk, pk ∈ recipe_tag_ids db' (r_id instance) ↔ pk ∈ t_id <$> tags_data) ∧
    r_last_editor instance' = Some editor ∧
    instance' ∈ recipes db' ∧
    (∀ r, r ∈ recipes db' → r_id r = r_id instance → r = instance').
Proof.
  intros (Ht & Hvt & Hi & Hvi) [Htime Hamounts] Heditor Hauthor.
  pose proof (validate_tags_nonempty _ _ Hvt) as Htne.
  pose proof (validate_ingredients_nonempty _ _ Hvi) as Hine.
  unfold RecipeCreateUpdateSerializer.update.
  rewrite Heditor, Ht, Hi. simpl.
  assert (∃ author, match vd_author vd with
                    | Some u => do pk <- assign_user u; Ok (Some pk)
                    | None => Ok None
                    end = Ok author) as [author ->].
  { destruct (vd_author vd) as [[|a]|]; [done|by eexists|by eexists]. }
  simpl. unfold Recipe_save. simpl. rewrite Htime. simpl.
  rewrite !bool_decide_eq_false_2 by done.
  rewrite add_ingredients_fits by (simpl; by rewrite save_row_limits).
  simpl. eexists _, _. split; [reflexivity|].
  split; [reflexivity|].
  pose proof (replaced_state db
                (set_attrs instance (Some editor) (vd_image vd) (vd_name vd)
                   (vd_text vd) (vd_cooking_time vd) author)
                tags_data ingredients) as Hstate.
  simpl in Hstate. destruct Hstate as (Hrows & Htags & Hin & Huniq).
  repeat apply conj; try done.
Qed.

Lemma update_replaces_witness :
  ∃ db' instance',
    RecipeCreateUpdateSerializer.update (Sample.ctx (Authenticated 2)) Sample.db
      Sample.pancakes SampleUpdate.payload = Ok (db', instance') ∧
    r_id instance' = r_id Sample.pancakes ∧
    amounts_of db' (r_id Sample.pancakes)
      = amount_row (r_id Sample.pancakes)
          <$> [{| ie_id := Sample.milk; ie_amount := 1 |}] ∧
    (∀ pk, pk ∈ recipe_tag_ids db' (r_id Sample.pancakes)
           ↔ pk ∈ t_id <$> [Sample.dinner]) ∧
    r_last_editor instance' = Some 2%nat ∧
    instance' ∈ recipes db' ∧
    (∀ r, r ∈ recipes db' → r_id r = r_id Sample.pancakes → r = instance').
Proof.
  apply (update_replaces_ingredients_and_tags (Sample.ctx (Authenticated 2))
           Sample.db Sample.pancakes SampleUpdate.payload
           [Sample.dinner] [{| ie_id := Sample.milk; ie_amount := 1 |}] 2%nat).
  - repeat split; vm_compute; reflexivity.
  - split; [reflexivity|]. by repeat constructor.
  - reflexivity.
  - discriminate.
Defined.

(** C3 as stated fails on payloads whose ingredient list passes its
    validator: the update raises and returns no recipe.  Without the tags
    key it raises KeyError; with the whole validated payload it raises a
    value error for an anonymous editor and for an anonymous author; and an
    amount that passes the validator but does not fit the storage makes it
    raise as well. *)
Lemma update_not_replaced :
  RecipeCreateUpdateSerializer.validate_ingredients
    [{| ie_id := Sample.milk; ie_amount := 1 |}]
  = Ok [{| ie_id := Sample.milk; ie_amount := 1 |}] ∧
  RecipeCreateUpdateSerializer.update (Sample.ctx (Authenticated 2)) Sample.db
    Sample.pancakes SampleRuns.no_tags_payload
  = Raise (KeyError "tags") ∧
  RecipeCreateUpdateSerializer.update (Sample.ctx AnonymousUser) Sample.db
    Sample.pancakes SampleUpdate.payload
  = Raise (ValueError "must be a User instance") ∧
  RecipeCreateUpdateSerializer.update (Sample.ctx (Authenticated 2)) Sample.db
    Sample.pancakes SampleRuns.anonymous_author_payload
  = Raise (ValueError "must be a User instance") ∧
  RecipeCreateUpdateSerializer.validate_ingredients
    [{| ie_id := Sample.milk; ie_amount := 9223372036854775808 |}]
  = Ok [{| ie_id := Sample.milk; ie_amount := 9223372036854775808 |}] ∧
  RecipeCreateUpdateSerializer.update (Sample.ctx (Authenticated 2)) Sample.db
    Sample.pancakes SampleRuns.huge_amount_payload
  = Raise OutOfRange.
Proof. repeat split; vm_compute; reflexivity. Qed.

(** The update on the sample data: pancakes had flour; after
    the update with one entry for milk its only ingredient line is milk. *)
Example update_sample_lines :
  RecipeViewSerializer.get_ingredients Sample.db Sample.pancakes
  = [{| iad_id := Some 1%nat; iad_name := Some "flour";
        iad_measurement_unit := Some "g"; iad_amount := 200 |}] ∧
  match RecipeCreateUpdateSerializer.update (Sample.ctx (Authenticated 2)) Sample.db
          Sample.pancakes SampleUpdate.payload with
  | Ok (db', instance') =>
      RecipeViewSerializer.get_ingredients db' instance'
      = [{| iad_id := Some 2%nat; iad_name := Some "milk";
            iad_measurement_unit := Some "ml"; iad_amount := 1 |}]
  | Raise _ => False
  end.
Proof. split; vm_compute; reflexivity. Qed.

(** ** C4: the recipes of a subscription and [recipes_limit] *)

Lemma py_int_raises `{PythonInt} (v : option string) (e : exception) :
  py_int v = Raise e → e = TypeError ∨ ∃ msg, e = ValueError msg.
Proof.
  unfold py_int. destruct v as [s|].
  - destruct (int_of_str s); [discriminate|].
    intros [= <-]. right. by eexists.
  - intros [= <-]. by left.
Qed.




(** ** C5: validation of a subscription *)

Lemma exists_subscription_elem (db : Database) (usr author : nat) :
  exists_subscription db usr author = true
  ↔ {| s_user := usr; s_author := author |} ∈ subscriptions db.
Proof.
  unfold exists_subscription. rewrite existsb_exists. split.
  - intros ([u a] & Hin & Heq). simpl in Heq.
    apply andb_true_iff in Heq as [->%Nat.eqb_eq ->%Nat.eqb_eq].
    by apply list_elem_of_In.
  - intros Hin. eexists. split; [by apply list_elem_of_In|].
    simpl. by rewrite !Nat.eqb_refl.
Qed.

(** C5, amended.  For an authenticated viewer and a target that the path
    parameter resolves to: when the viewer is the target, [validate] raises
    a validation error; when the row (viewer, target) is already stored, it
    raises a validation error; otherwise it returns the pair (viewer,
    target).  Both errors are validation errors with a message of their
    own. *)
Theorem subscription_validate
  (ctx : Context) (db : Database) (viewer : nat) (target : User) :
  user (request ctx) = Authenticated viewer →
  get_user_or_404 db (kwargs_author_id (request ctx)) = Ok target →
  (viewer = u_id target →
     SubscriptionSerializer.validate ctx db
     = Raise (ValidationError "Нельзя подписаться на себя!")) ∧
  ({| s_user := viewer; s_author := u_id target |} ∈ subscriptions db →
     is_validation_error (SubscriptionSerializer.validate ctx db)) ∧
  (viewer ≠ u_id target →
   {| s_user := viewer; s_author := u_id target |} ∈ subscriptions db →
     SubscriptionSerializer.validate ctx db
     = Raise (ValidationError "Вы уже подписаны на этого пользователя!")) ∧
  (viewer ≠ u_id target →
   {| s_user := viewer; s_author := u_id target |} ∉ subscriptions db →
     SubscriptionSerializer.validate ctx db = Ok (Authenticated viewer, target)).
Proof.
  intros Huser Htarget.
  unfold SubscriptionSerializer.validate, SubscriptionSerializer.get_user_and_author.
  rewrite Htarget, Huser. simpl.
  destruct (Nat.eqb_spec viewer (u_id target)) as [Heq|Hne].
  - repeat apply conj; try done. intros _. by eexists.
  - rewrite <- exists_subscription_elem.
    destruct (exists_subscription db viewer (u_id target)).
    + repeat apply conj; try done. intros _. by eexists.
    + repeat apply conj; done.
Qed.

Lemma subscription_validate_witness :
  SubscriptionSerializer.validate (Sample.ctx_author (Authenticated 2) 2) Sample.db
  = Raise (ValidationError "Нельзя подписаться на себя!") ∧
  is_validation_error
    (SubscriptionSerializer.validate (Sample.ctx_author (Authenticated 2) 1) Sample.db) ∧
  SubscriptionSerializer.validate (Sample.ctx_author (Authenticated 1) 2) Sample.db
  = Ok (Authenticated 1, Sample.bob).
Proof.
  repeat apply conj.
  - apply (subscription_validate (Sample.ctx_author (Authenticated 2) 2) Sample.db
             2%nat Sample.bob); reflexivity.
  - apply (subscription_validate (Sample.ctx_author (Authenticated 2) 1) Sample.db
             2%nat Sample.alice); [reflexivity|reflexivity|]. left.
  - apply (subscription_validate (Sample.ctx_author (Authenticated 1) 2) Sample.db
             1%nat Sample.bob); [reflexivity|reflexivity|simpl; lia|].
    intros Hin. apply list_elem_of_singleton in Hin. discriminate Hin.
Defined.

(** C5 as stated fails for an anonymous viewer: the target exists, the
    viewer is not the target and no row links them, and [validate] raises an
    attribute error where the pair was promised. *)
Lemma subscription_validate_anonymous :
  get_user_or_404 Sample.db (kwargs_author_id (request (Sample.ctx_author AnonymousUser 1)))
  = Ok Sample.alice ∧
  SubscriptionSerializer.user_eq AnonymousUser Sample.alice = false ∧
  SubscriptionSerializer.validate (Sample.ctx_author AnonymousUser 1) Sample.db
  = Raise (AttributeError "follower").
Proof. repeat split. Qed.

(** ** C6: creating a favourite or a shopping-list entry *)

Lemma find_recipe_none (db : Database) (k : nat) :
  (∀ r, r ∈ recipes db → r_id r ≠ k) →
  find (fun r => Nat.eqb (r_id r) k) (recipes db) = None.
Proof.
  intros Hnone. destruct (find _ (recipes db)) as [r|] eqn:Hfind; [|done].
  apply find_some in Hfind as [Hin Heq].
  apply Nat.eqb_eq in Heq. apply list_elem_of_In in Hin.
  by destruct (Hnone r Hin).
Qed.

Lemma find_recipe_some (db : Database) (r : Recipe) :
  r ∈ recipes db →
  ∃ r', find (fun x => Nat.eqb (r_id x) (r_id r)) (recipes db) = Some r'
        ∧ r_id r' = r_id r ∧ r' ∈ recipes db.
Proof.
  intros Hin. destruct (find _ (recipes db)) as [r'|] eqn:Hfind.
  - apply find_some in Hfind as [Hin' Heq]. exists r'.
    repeat split; [by apply Nat.eqb_eq|by apply list_elem_of_In].
  - exfalso. apply list_elem_of_In in Hin.
    pose proof (find_none _ _ Hfind r Hin) as Hne. simpl in Hne.
    by rewrite Nat.eqb_refl in Hne.
Qed.

(** C6, amended.  For FavouriteList and for ShoppingList alike: when the
    recipe id of the path is the id of no stored recipe, [create] fails
    with not-found and the storage is left as it was, so no join row is
    inserted; when it is the id of a stored recipe, the viewer is
    authenticated and does not hold that recipe yet, [create] appends
    exactly one row (viewer, recipe) to the table and changes nothing
    else. *)
Theorem membership_create (model : JoinModel) (ctx : Context) (db : Database) :
  ((∀ r, r ∈ recipes db → kwargs_recipe_id (request ctx) ≠ Some (r_id r)) →
     FavouriteListSerializer.create_of model ctx db = Raise Http404 ∧
     storage_after db (FavouriteListSerializer.create_of model ctx db) = db) ∧
  (∀ r viewer,
     r ∈ recipes db →
     kwargs_recipe_id (request ctx) = Some (r_id r) →
     user (request ctx) = Authenticated viewer →
     exists_join (objects model db) viewer (r_id r) = false →
     FavouriteListSerializer.create_of model ctx db
     = Ok (set_objects model db
             (objects model db ++ [{| jr_user := viewer; jr_recipe := r_id r |}]),
           {| jr_user := viewer; jr_recipe := r_id r |})).
Proof.
  unfold FavouriteListSerializer.create_of, get_recipe_or_404. split.
  - intros Hnone. destruct (kwargs_recipe_id (request ctx)) as [k|]; [|done].
    rewrite find_recipe_none; [done|].
    intros r Hin Heq. apply (Hnone r Hin). by rewrite Heq.
  - intros r viewer Hin Hkey Huser Hfree. rewrite Hkey, Huser.
    destruct (find_recipe_some db r Hin) as (r' & -> & Hid & _).
    simpl. unfold objects_create. simpl. rewrite Hid, Hfree. reflexivity.
Qed.

Lemma membership_create_witness :
  (FavouriteListSerializer.create (Sample.ctx_recipe (Authenticated 1) 7) Sample.db
   = Raise Http404 ∧
   storage_after Sample.db
     (FavouriteListSerializer.create (Sample.ctx_recipe (Authenticated 1) 7) Sample.db)
   = Sample.db) ∧
  ShoppingListSerializer.create (Sample.ctx_recipe (Authenticated 1) 2) Sample.db
  = Ok (set_objects ShoppingList Sample.db
          (shopping_list Sample.db ++ [{| jr_user := 1; jr_recipe := 2 |}]),
        {| jr_user := 1; jr_recipe := 2 |}).
Proof.
  split.
  - apply (proj1 (membership_create FavouriteList
                    (Sample.ctx_recipe (Authenticated 1) 7) Sample.db)).
    intros r Hin Heq. injection Heq as Heq.
    repeat (apply elem_of_cons in Hin as [->|Hin]; [discriminate Heq|]).
    by apply elem_of_nil in Hin.
  - apply (proj2 (membership_create ShoppingList
                    (Sample.ctx_recipe (Authenticated 1) 2) Sample.db)
             Sample.porridge 1%nat); try reflexivity.
    right. left.
Defined.

(** C6 as stated fails where the recipe exists and no row is inserted: Bob
    already holds pancakes, and storage refuses the pair a second time; an
    anonymous viewer cannot own a row at all. *)
Lemma membership_create_not_inserted :
  get_recipe_or_404 Sample.db (Some 1%nat) = Ok Sample.pancakes ∧
  FavouriteListSerializer.create (Sample.ctx_recipe (Authenticated 2) 1) Sample.db
  = Raise IntegrityError ∧
  FavouriteListSerializer.create (Sample.ctx_recipe AnonymousUser 1) Sample.db
  = Raise (ValueError "must be a User instance") ∧
  storage_after Sample.db
    (FavouriteListSerializer.create (Sample.ctx_recipe AnonymousUser 1) Sample.db)
  = Sample.db.
Proof. repeat split. Qed.

(** ** C7: the write serializer answers with the read representation *)

Lemma view_data_request_only (ctx1 ctx2 : Context) (db : Database) (r : Recipe) :
  request ctx1 = request ctx2 →
  RecipeViewSerializer.data ctx1 db r = RecipeViewSerializer.data ctx2 db r.
Proof.
  intros Hreq.
  unfold RecipeViewSerializer.data, CustomUserSerializer.data,
    CustomUserSerializer.get_is_subscribed,
    RecipeViewSerializer.get_is_favorited,
    RecipeViewSerializer.get_is_in_shopping_cart.
  by rewrite Hreq.
Qed.

Lemma view_data_fields (ctx : Context) (db : Database) (r : Recipe) :
  rv_id (RecipeViewSerializer.data ctx db r) = r_id r ∧
  rv_tags (RecipeViewSerializer.data ctx db r)
  = TagSerializer.data <$> tags_of db (r_id r) ∧
  match rv_author (RecipeViewSerializer.data ctx db r) with
  | Some rendered =>
      ∃ a, a ∈ users db ∧ u_id a = r_author r ∧
           rendered = CustomUserSerializer.data ctx db a
  | None => ∀ a, a ∈ users db → u_id a ≠ r_author r
  end ∧
  rv_ingredients (RecipeViewSerializer.data ctx db r)
  = RecipeViewSerializer.get_ingredients db r ∧
  rv_is_favorited (RecipeViewSerializer.data ctx db r)
  = RecipeViewSerializer.get_is_favorited ctx db r ∧
  rv_is_in_shopping_cart (RecipeViewSerializer.data ctx db r)
  = RecipeViewSerializer.get_is_in_shopping_cart ctx db r.
Proof.
  unfold RecipeViewSerializer.data. simpl. repeat apply conj; try reflexivity.
  destruct (find _ (users db)) as [a|] eqn:Hfind; simpl.
  - apply find_some in Hfind as [Hin Heq]. exists a.
    repeat split; [by apply list_elem_of_In|by apply Nat.eqb_eq].
  - intros a Hin Hid. apply list_elem_of_In in Hin.
    pose proof (find_none _ _ Hfind a Hin) as Hne. simpl in Hne.
    rewrite Hid, Nat.eqb_refl in Hne. discriminate Hne.
Qed.

Lemma create_persists (db db' : Database) (vd : ValidatedData) (r : Recipe) :
  RecipeCreateUpdateSerializer.create db vd = Ok (db', r) → r ∈ recipes db'.
Proof.
  unfold RecipeCreateUpdateSerializer.create, Recipe_objects_create.
  destruct (vd_ingredients vd) as [ings|]; simpl; [|discriminate].
  destruct (vd_tags vd) as [ts|]; simpl; [|discriminate].
  destruct (vd_image vd) as [image|]; simpl; [|discriminate].
  destruct (vd_author vd) as [[|a]|]; simpl; try discriminate.
  all: destruct (vd_last_editor vd) as [[|e]|], (vd_cooking_time vd) as [ct|];
    simpl; try discriminate.
  all: destruct (holds _ ct); simpl; [|discriminate].
  all: destruct (RecipeCreateUpdateSerializer.add_ingredients _ ings _)
         as [db1|err] eqn:Hadd; simpl; [|discriminate].
  all: intros [= <- <-]; apply add_ingredients_spec in Hadd as [_ ->]; simpl.
  all: apply elem_of_app; right; left.
Qed.

Lemma update_persists (ctx : Context) (db db' : Database) (instance r : Recipe)
  (vd : ValidatedData) :
  RecipeCreateUpdateSerializer.update ctx db instance vd = Ok (db', r) →
  r ∈ recipes db'.
Proof.
  unfold RecipeCreateUpdateSerializer.update, Recipe_save.
  destruct (assign_user _) as [editor|]; simpl; [|discriminate].
  destruct (vd_tags vd) as [ts|]; simpl; [|discriminate].
  destruct (vd_ingredients vd) as [ings|]; simpl; [|discriminate].
  destruct (vd_author vd) as [[|a]|]; simpl; try discriminate.
  all: destruct (holds _ _); simpl; [|discriminate].
  all: destruct (bool_decide (ings = [])); simpl.
  all: try (destruct (RecipeCreateUpdateSerializer.add_ingredients _ ings _)
              as [db3|err] eqn:Hadd; simpl; [|discriminate];
            apply add_ingredients_spec in Hadd as [_ ->]).
  all: intros [= <- <-].
  all: destruct (bool_decide (ts = [])); simpl.
  all: apply save_row_stored.
Qed.

(** C7.  After a successful create or update the returned recipe is stored,
    and what the write serializer returns for it is what
    RecipeViewSerializer returns for it on the same storage and the same
    request: its tags, author, ingredient lines, [is_favorited] and
    [is_in_shopping_cart] are the ones computed from storage, the author
    being null only when no stored user has the author's key. *)
Theorem write_output_is_read_representation
  (ctx : Context) (db db' : Database) (instance r : Recipe) (vd : ValidatedData) :
  RecipeCreateUpdateSerializer.create db vd = Ok (db', r) ∨
  RecipeCreateUpdateSerializer.update ctx db instance vd = Ok (db', r) →
  r ∈ recipes db' ∧
  RecipeCreateUpdateSerializer.to_representation ctx db' r
  = RecipeViewSerializer.data ctx db' r ∧
  rv_id (RecipeCreateUpdateSerializer.to_representation ctx db' r) = r_id r ∧
  rv_tags (RecipeCreateUpdateSerializer.to_representation ctx db' r)
  = TagSerializer.data <$> tags_of db' (r_id r) ∧
  match rv_author (RecipeCreateUpdateSerializer.to_representation ctx db' r) with
  | Some rendered =>
      ∃ a, a ∈ users db' ∧ u_id a = r_author r ∧
           rendered = CustomUserSerializer.data ctx db' a
  | None => ∀ a, a ∈ users db' → u_id a ≠ r_author r
  end ∧
  rv_ingredients (RecipeCreateUpdateSerializer.to_representation ctx db' r)
  = RecipeViewSerializer.get_ingredients db' r ∧
  rv_is_favorited (RecipeCreateUpdateSerializer.to_representation ctx db' r)
  = RecipeViewSerializer.get_is_favorited ctx db' r ∧
  rv_is_in_shopping_cart (RecipeCreateUpdateSerializer.to_representation ctx db' r)
  = RecipeViewSerializer.get_is_in_shopping_cart ctx db' r.
Proof.
  intros Hdone.
  assert (Hsame : RecipeCreateUpdateSerializer.to_representation ctx db' r
                  = RecipeViewSerializer.data ctx db' r).
  { unfold RecipeCreateUpdateSerializer.to_representation.
    by apply view_data_request_only. }
  split; [|split; [exact Hsame|]].
  - destruct Hdone as [Hc|Hu];
      [by eapply create_persists|by eapply update_persists].
  - rewrite Hsame. apply view_data_fields.
Qed.

Lemma write_output_witness :
  RecipeCreateUpdateSerializer.create Sample.db SampleCreate.bob_payload
  = Ok (SampleCreate.created_db, SampleCreate.created_recipe) ∧
  SampleCreate.created_recipe ∈ recipes SampleCreate.created_db ∧
  RecipeCreateUpdateSerializer.to_representation (Sample.ctx (Authenticated 1))
    SampleCreate.created_db SampleCreate.created_recipe
  = RecipeViewSerializer.data (Sample.ctx (Authenticated 1))
      SampleCreate.created_db SampleCreate.created_recipe.
Proof.
  assert (Hcreate : RecipeCreateUpdateSerializer.create Sample.db SampleCreate.bob_payload
                    = Ok (SampleCreate.created_db, SampleCreate.created_recipe)).
  { vm_compute. reflexivity. }
  split; [exact Hcreate|].
  destruct (write_output_is_read_representation (Sample.ctx (Authenticated 1))
              Sample.db SampleCreate.created_db Sample.pancakes
              SampleCreate.created_recipe SampleCreate.bob_payload
              (or_introl Hcreate)) as (Hstored & Hsame & _).
  split; [exact Hstored|exact Hsame].
Defined.

(** ** C8: create, then read back *)

Lemma fresh_viewer_not_member (db : Database) (viewer : RequestUser) (r : Recipe)
  (ctx : Context) :
  user (request ctx) = viewer →
  fresh_viewer db viewer →
  RecipeViewSerializer.get_is_favorited ctx db r = false ∧
  RecipeViewSerializer.get_is_in_shopping_cart ctx db r = false.
Proof.
  intros Huser Hfresh.
  unfold RecipeViewSerializer.get_is_favorited,
    RecipeViewSerializer.get_is_in_shopping_cart.
  rewrite Huser. destruct viewer as [|pk]; [done|].
  destruct Hfresh as [Hfav Hcart]. unfold exists_join.
  split; apply not_true_iff_false; intros Hex;
    apply existsb_exists in Hex as (row & Hin & Heq);
    apply andb_true_iff in Heq as [Hu%Nat.eqb_eq _];
    apply list_elem_of_In in Hin.
  - by apply (Hfav row Hin).
  - by apply (Hcart row Hin).
Qed.

Lemma filter_amounts_fresh (db : Database) :
  amounts_reference_recipes db →
  filter (fun row => ia_recipe row = next_recipe_id db) (ingredient_amounts db) = [].
Proof.
  unfold amounts_reference_recipes.
  induction (ingredient_amounts db) as [|row rows IH]; intros Href; [done|].
  rewrite filter_cons_False.
  - apply IH. intros row' Hin. apply Href. by right.
  - pose proof (Href row ltac:(left)). lia.
Qed.

Lemma holds_small (c : IntColumn) (z : Z) :
  0 ≤ z ≤ 32767 → holds c z = true.
Proof.
  intros Hz. unfold holds.
  pose proof (col_min_ok c). pose proof (col_max_ok c).
  apply andb_true_iff. split; apply Z.leb_le; lia.
Qed.

(** C8.  On a storage whose ingredient-amount rows belong to recipes already
    created, creating a recipe from the payload {tags: [T1], ingredients:
    [{id: I1, amount: 2}], cooking_time: 10, name: X, image} succeeds when
    I1 is the stored ingredient of that id and the author is a stored user;
    the payload passes the field validators; and the read representation of
    the new recipe, for a viewer without favourites and with an empty cart,
    has [is_favorited] and [is_in_shopping_cart] false and exactly one
    ingredient line, that of I1 with amount 2. *)
Theorem create_then_read
  (ctx : Context) (db : Database) (t1 : Tag) (i1 : Ingredient) (image : string)
  (text : option string) (author : User) :
  find (fun i => Nat.eqb (i_id i) (i_id i1)) (ingredients db) = Some i1 →
  find (fun u => Nat.eqb (u_id u) (u_id author)) (users db) = Some author →
  amounts_reference_recipes db →
  fresh_viewer db (user (request ctx)) →
  RecipeCreateUpdateSerializer.validate_tags [t1] = Ok [t1] ∧
  RecipeCreateUpdateSerializer.validate_ingredients [{| ie_id := i1; ie_amount := 2 |}]
  = Ok [{| ie_id := i1; ie_amount := 2 |}] ∧
  RecipeCreateUpdateSerializer.validate_cooking_time (PyInt 10) = Ok (PyInt 10) ∧
  ∃ db' r v,
    RecipeCreateUpdateSerializer.create db
      (SampleCreate.payload t1 i1 image text (u_id author)) = Ok (db', r) ∧
    RecipeViewSerializer.data ctx db' r = v ∧
    rv_is_favorited v = false ∧
    rv_is_in_shopping_cart v = false ∧
    rv_ingredients v
    = [{| iad_id := Some (i_id i1); iad_name := Some (i_name i1);
          iad_measurement_unit := Some (i_measurement_unit i1);
          iad_amount := 2 |}] ∧
    rv_author v = Some (CustomUserSerializer.data ctx db' author) ∧
    rv_name v = "X" ∧ rv_cooking_time v = 10.
Proof.
  intros Hing Hauthor Href Hfresh.
  assert (Hone : ∀ pk : nat, len_set [pk] = 1%nat).
  { intros pk. apply (len_set_NoDup [pk]), NoDup_singleton. }
  split; [|split; [|split; [reflexivity|]]].
  - unfold RecipeCreateUpdateSerializer.validate_tags.
    rewrite bool_decide_eq_false_2 by discriminate. simpl. by rewrite Hone.
  - unfold RecipeCreateUpdateSerializer.validate_ingredients.
    rewrite bool_decide_eq_false_2 by discriminate. simpl. by rewrite Hone.
  - pose (r := {| r_id := next_recipe_id db; r_name := "X"; r_image := image;
                  r_text := default "" text; r_cooking_time := 10;
                  r_author := u_id author; r_last_editor := None |}).
    pose (db1 := set_recipes db (recipes db ++ [r]) (S (next_recipe_id db))).
    pose (db' := tags_set
                   (set_ingredient_amounts db1
                      (ingredient_amounts db1
                       ++ [amount_row (r_id r) {| ie_id := i1; ie_amount := 2 |}]))
                   (r_id r) [t1]).
    assert (Hcreate : RecipeCreateUpdateSerializer.create db
                        (SampleCreate.payload t1 i1 image text (u_id author))
                      = Ok (db', r)).
    { unfold RecipeCreateUpdateSerializer.create, SampleCreate.payload,
        Recipe_objects_create. simpl.
      rewrite (holds_small (cooking_time_column (limits db)) 10) by lia. simpl.
      unfold IngredientAmount_objects_create. simpl.
      rewrite (holds_small (amount_column (limits db)) 2) by lia. reflexivity. }
    assert (Hlines : RecipeViewSerializer.get_ingredients db' r
                     = [{| iad_id := Some (i_id i1); iad_name := Some (i_name i1);
                           iad_measurement_unit := Some (i_measurement_unit i1);
                           iad_amount := 2 |}]).
    { unfold RecipeViewSerializer.get_ingredients, amounts_of. simpl.
      rewrite filter_app, (filter_amounts_fresh db Href).
      rewrite filter_cons_True by done. simpl.
      unfold IngredientAmountShowSerializer.data. simpl. by rewrite Hing. }
    destruct (fresh_viewer_not_member db' (user (request ctx)) r ctx eq_refl)
      as [Hfav Hcart]; [exact Hfresh|].
    exists db', r, (RecipeViewSerializer.data ctx db' r).
    split; [exact Hcreate|]. split; [reflexivity|].
    unfold RecipeViewSerializer.data. simpl.
    split; [exact Hfav|]. split; [exact Hcart|]. split; [exact Hlines|].
    split; [|done].
    rewrite Hauthor. reflexivity.
Qed.

Lemma create_then_read_witness :
  RecipeCreateUpdateSerializer.validate_tags [Sample.dinner] = Ok [Sample.dinner] ∧
  RecipeCreateUpdateSerializer.validate_ingredients
    [{| ie_id := Sample.milk; ie_amount := 2 |}]
  = Ok [{| ie_id := Sample.milk; ie_amount := 2 |}] ∧
  RecipeCreateUpdateSerializer.validate_cooking_time (PyInt 10) = Ok (PyInt 10) ∧
  ∃ db' r v,
    RecipeCreateUpdateSerializer.create Sample.db
      (SampleCreate.payload Sample.dinner Sample.milk "recipes/x.png" None
         (u_id Sample.bob)) = Ok (db', r) ∧
    RecipeViewSerializer.data (Sample.ctx (Authenticated 1)) db' r = v ∧
    rv_is_favorited v = false ∧
    rv_is_in_shopping_cart v = false ∧
    rv_ingredients v
    = [{| iad_id := Some (i_id Sample.milk); iad_name := Some (i_name Sample.milk);
          iad_measurement_unit := Some (i_measurement_unit Sample.milk);
          iad_amount := 2 |}] ∧
    rv_author v
    = Some (CustomUserSerializer.data (Sample.ctx (Authenticated 1)) db' Sample.bob) ∧
    rv_name v = "X" ∧ rv_cooking_time v = 10.
Proof.
  apply (create_then_read (Sample.ctx (Authenticated 1)) Sample.db Sample.dinner
           Sample.milk "recipes/x.png" None Sample.bob).
  - reflexivity.
  - reflexivity.
  - intros row Hin.
    repeat (apply elem_of_cons in Hin as [->|Hin]; [simpl; lia|]).
    by apply elem_of_nil in Hin.
  - split; intros row Hin;
      (repeat (apply elem_of_cons in Hin as [->|Hin]; [simpl; lia|]));
      by apply elem_of_nil in Hin.
Defined.

(** ** C9: the shopping list serializer is the favourite serializer on
    another table *)

Lemma create_of_inserted (model : JoinModel) (ctx : Context) (db db' : Database)
  (row : JoinRow) :
  FavouriteListSerializer.create_of model ctx db = Ok (db', row) →
  user (request ctx) = Authenticated (jr_user row) ∧
  kwargs_recipe_id (request ctx) = Some (jr_recipe row) ∧
  (∃ r, r ∈ recipes db ∧ r_id r = jr_recipe row) ∧
  db' = set_objects model db (objects model db ++ [row]).
Proof.
  unfold FavouriteListSerializer.create_of, get_recipe_or_404, objects_create.
  destruct (kwargs_recipe_id (request ctx)) as [k|]; [|discriminate].
  destruct (find _ (recipes db)) as [r|] eqn:Hfind; simpl; [|discriminate].
  destruct (user (request ctx)) as [|pk]; simpl; [discriminate|].
  destruct (exists_join _ pk (r_id r)); [discriminate|].
  intros [= <- <-]. simpl.
  apply find_some in Hfind as [Hin Heq%Nat.eqb_eq].
  repeat split; [by f_equal|].
  exists r. split; [by apply list_elem_of_In|done].
Qed.

(** C9.  ShoppingListSerializer behaves as FavouriteListSerializer does with
    the two tables exchanged: its [create] on a storage is the favourite
    [create] on the storage with the tables swapped, swapped back, errors
    included.  A successful shopping-list [create] appends the row (viewer,
    recipe) to ShoppingList and leaves FavouriteList alone, and the
    favourite one does the converse.  Both render a row in the same way, as
    the minimal representation of the linked recipe. *)
Theorem shopping_list_mirrors_favourites (ctx : Context) (db : Database) :
  ShoppingListSerializer.create ctx db
  = swap_result (FavouriteListSerializer.create ctx (swap_tables db)) ∧
  (∀ db' row, ShoppingListSerializer.create ctx db = Ok (db', row) →
     user (request ctx) = Authenticated (jr_user row) ∧
     kwargs_recipe_id (request ctx) = Some (jr_recipe row) ∧
     shopping_list db' = (shopping_list db ++ [row])%list ∧
     favourite_list db' = favourite_list db) ∧
  (∀ db' row, FavouriteListSerializer.create ctx db = Ok (db', row) →
     user (request ctx) = Authenticated (jr_user row) ∧
     kwargs_recipe_id (request ctx) = Some (jr_recipe row) ∧
     favourite_list db' = (favourite_list db ++ [row])%list ∧
     shopping_list db' = shopping_list db) ∧
  (∀ row, ShoppingListSerializer.to_representation db row
          = FavouriteListSerializer.to_representation db row) ∧
  (∀ row v, FavouriteListSerializer.to_representation db row = Ok v →
     ∃ r, r ∈ recipes db ∧ r_id r = jr_recipe row ∧
          v = RecipeReadOnlySerializer.data r).
Proof.
  repeat apply conj.
  - unfold ShoppingListSerializer.create, FavouriteListSerializer.create,
      FavouriteListSerializer.create_of, get_recipe_or_404, objects_create.
    destruct (kwargs_recipe_id (request ctx)) as [k|]; [|done]. simpl.
    destruct (find _ (recipes db)) as [r|]; simpl; [|done].
    destruct (user (request ctx)) as [|pk]; simpl; [done|].
    destruct (exists_join (shopping_list db) pk (r_id r)); [done|].
    simpl. by destruct db.
  - intros db' row Hc. apply create_of_inserted in Hc as (Hu & Hk & _ & ->).
    done.
  - intros db' row Hc. apply create_of_inserted in Hc as (Hu & Hk & _ & ->).
    done.
  - reflexivity.
  - intros row v. unfold FavouriteListSerializer.to_representation.
    destruct (find _ (recipes db)) as [r|] eqn:Hfind; simpl; [|discriminate].
    intros [= <-]. apply find_some in Hfind as [Hin Heq%Nat.eqb_eq].
    exists r. repeat split; [by apply list_elem_of_In|done].
Qed.

Lemma shopping_list_mirrors_witness :
  ShoppingListSerializer.create (Sample.ctx_recipe (Authenticated 1) 1) Sample.db
  = swap_result (FavouriteListSerializer.create
                   (Sample.ctx_recipe (Authenticated 1) 1) (swap_tables Sample.db)) ∧
  ∃ db' row,
    ShoppingListSerializer.create (Sample.ctx_recipe (Authenticated 1) 1) Sample.db
    = Ok (db', row) ∧
    shopping_list db' = (shopping_list Sample.db ++ [row])%list ∧
    favourite_list db' = favourite_list Sample.db ∧
    ShoppingListSerializer.to_representation db' row
    = Ok (RecipeReadOnlySerializer.data Sample.pancakes).
Proof.
  destruct (shopping_list_mirrors_favourites
              (Sample.ctx_recipe (Authenticated 1) 1) Sample.db)
    as (Hswap & Hshop & _ & _ & _).
  split; [exact Hswap|].
  eexists _, _. split; [reflexivity|].
  destruct (Hshop _ _ eq_refl) as (_ & _ & Hrows & Hfav).
  split; [exact Hrows|split; [exact Hfav|reflexivity]].
Defined.

(** ** C10: [is_subscribed] of a rendered subscription *)



(** * Further properties of the serializers *)

(** ** The viewer-relative flags for an authenticated viewer *)

Lemma exists_join_elem (rows : list JoinRow) (usr recipe : nat) :
  exists_join rows usr recipe = true
  ↔ {| jr_user := usr; jr_recipe := recipe |} ∈ rows.
Proof.
  unfold exists_join. rewrite existsb_exists. split.
  - intros ([u r] & Hin & Heq). simpl in Heq.
    apply andb_true_iff in Heq as [->%Nat.eqb_eq ->%Nat.eqb_eq].
    by apply list_elem_of_In.
  - intros Hin. eexists. split; [by apply list_elem_of_In|].
    simpl. by rewrite !Nat.eqb_refl.
Qed.

(** X1.  For an authenticated viewer, [is_subscribed] of a rendered user is
    true exactly when the Subscription table holds the row (viewer, that
    user). *)
Theorem user_is_subscribed_iff
  (ctx : Context) (db : Database) (viewer : nat) (obj : User) :
  user (request ctx) = Authenticated viewer →
  CustomUserSerializer.get_is_subscribed ctx db obj = true
  ↔ {| s_user := viewer; s_author := u_id obj |} ∈ subscriptions db.
Proof.
  intros Huser. unfold CustomUserSerializer.get_is_subscribed.
  rewrite Huser. apply exists_subscription_elem.
Qed.

Lemma user_is_subscribed_iff_witness :
  CustomUserSerializer.get_is_subscribed (Sample.ctx (Authenticated 2)) Sample.db
    Sample.alice = true
  ↔ {| s_user := 2; s_author := u_id Sample.alice |} ∈ subscriptions Sample.db.
Proof.
  apply (user_is_subscribed_iff (Sample.ctx (Authenticated 2)) Sample.db 2%nat
           Sample.alice).
  reflexivity.
Defined.

(** X2.  For an authenticated viewer, [is_favorited] of a recipe is true
    exactly when FavouriteList holds the row (viewer, recipe), and
    [is_in_shopping_cart] exactly when ShoppingList holds it. *)
Theorem recipe_flags_iff
  (ctx : Context) (db : Database) (viewer : nat) (obj : Recipe) :
  user (request ctx) = Authenticated viewer →
  (RecipeViewSerializer.get_is_favorited ctx db obj = true
   ↔ {| jr_user := viewer; jr_recipe := r_id obj |} ∈ favourite_list db) ∧
  (RecipeViewSerializer.get_is_in_shopping_cart ctx db obj = true
   ↔ {| jr_user := viewer; jr_recipe := r_id obj |} ∈ shopping_list db).
Proof.
  intros Huser.
  unfold RecipeViewSerializer.get_is_favorited,
    RecipeViewSerializer.get_is_in_shopping_cart.
  rewrite Huser. split; apply exists_join_elem.
Qed.

Lemma recipe_flags_iff_witness :
  (RecipeViewSerializer.get_is_favorited (Sample.ctx (Authenticated 2)) Sample.db
     Sample.pancakes = true
   ↔ {| jr_user := 2; jr_recipe := r_id Sample.pancakes |} ∈ favourite_list Sample.db) ∧
  (RecipeViewSerializer.get_is_in_shopping_cart (Sample.ctx (Authenticated 2)) Sample.db
     Sample.pancakes = true
   ↔ {| jr_user := 2; jr_recipe := r_id Sample.pancakes |} ∈ shopping_list Sample.db).
Proof.
  apply (recipe_flags_iff (Sample.ctx (Authenticated 2)) Sample.db 2%nat
           Sample.pancakes).
  reflexivity.
Defined.

(** ** The ingredient lines of a recipe *)

Lemma data_line_of (db : Database) (row : IngredientAmount) :
  line_of db row (IngredientAmountShowSerializer.data db row).
Proof.
  unfold line_of, IngredientAmountShowSerializer.data. simpl. split; [done|].
  destruct (find _ (ingredients db)) as [i|] eqn:Hfind; simpl.
  - apply find_some in Hfind as [Hin Heq%Nat.eqb_eq].
    split; [done|]. exists i. by rewrite list_elem_of_In.
  - repeat split. intros i Hin Hid. apply list_elem_of_In in Hin.
    pose proof (find_none _ _ Hfind i Hin) as Hne. simpl in Hne.
    rewrite Hid, Nat.eqb_refl in Hne. discriminate Hne.
Qed.

Lemma line_id_iff (db : Database) (row : IngredientAmount) :
  is_Some (iad_id (IngredientAmountShowSerializer.data db row))
  ↔ ∃ i, i ∈ ingredients db ∧ i_id i = ia_ingredient row.
Proof.
  pose proof (data_line_of db row) as [_ Hline].
  destruct (iad_id (IngredientAmountShowSerializer.data db row)) as [pk|].
  - destruct Hline as (-> & i & Hin & Hid & _). split; [|by eexists].
    intros _. by exists i.
  - destruct Hline as (_ & _ & Hnone). split.
    + by intros [pk Hpk].
    + intros (i & Hin & Hid). by destruct (Hnone i Hin).
Qed.

(** X3.  The ingredient lines of a recipe are one line per stored
    ingredient-amount row of the recipe, in storage order; a line carries
    the row's amount and the id, name and unit of the stored ingredient the
    row points to, or null for all three when that ingredient is not
    stored. *)
Theorem get_ingredients_lines (db : Database) (obj : Recipe) :
  Forall2 (line_of db) (amounts_of db (r_id obj))
    (RecipeViewSerializer.get_ingredients db obj) ∧
  iad_amount <$> RecipeViewSerializer.get_ingredients db obj
  = ia_amount <$> amounts_of db (r_id obj).
Proof.
  unfold RecipeViewSerializer.get_ingredients.
  induction (amounts_of db (r_id obj)) as [|row rows [IHlines IHamounts]].
  - split; [constructor|done].
  - rewrite !fmap_cons. split.
    + constructor; [apply data_line_of|exact IHlines].
    + by rewrite IHamounts.
Qed.

(** X4.  A line is rendered for every ingredient-amount row, whether its
    ingredient is stored or not; every line of a recipe shows an ingredient
    id exactly when every ingredient-amount row of the recipe points to a
    stored ingredient. *)
Theorem get_ingredients_complete_iff (db : Database) (obj : Recipe) :
  Forall (fun line => is_Some (iad_id line))
    (RecipeViewSerializer.get_ingredients db obj)
  ↔ Forall (fun row => ∃ i, i ∈ ingredients db ∧ i_id i = ia_ingredient row)
           (amounts_of db (r_id obj)).
Proof.
  unfold RecipeViewSerializer.get_ingredients.
  rewrite Forall_fmap. apply Forall_iff. intros row. apply line_id_iff.
Qed.

Lemma get_ingredients_complete_iff_witness :
  RecipeViewSerializer.get_ingredients SampleRuns.dangling_db Sample.pancakes
  = [{| iad_id := Some 1%nat; iad_name := Some "flour";
        iad_measurement_unit := Some "g"; iad_amount := 200 |};
     {| iad_id := None; iad_name := None; iad_measurement_unit := None;
        iad_amount := 5 |}] ∧
  ¬ Forall (fun row => ∃ i, i ∈ ingredients SampleRuns.dangling_db
                            ∧ i_id i = ia_ingredient row)
      (amounts_of SampleRuns.dangling_db (r_id Sample.pancakes)).
Proof.
  split; [reflexivity|].
  intros Hall.
  apply (get_ingredients_complete_iff SampleRuns.dangling_db Sample.pancakes) in Hall.
  apply Forall_cons in Hall as [_ Hall]. apply Forall_cons in Hall as [[pk Hpk] _].
  discriminate Hpk.
Defined.

(** ** The full representation of a recipe *)

(** X5.  Only the viewer-relative booleans of a rendered recipe depend on
    the request: under any two contexts a recipe renders with the same id,
    tags, ingredient lines, name, image, text, cooking time and the same
    identity fields of the author. *)
Theorem view_data_viewer_independent
  (ctx1 ctx2 : Context) (db : Database) (obj : Recipe) :
  rv_id (RecipeViewSerializer.data ctx2 db obj)
  = rv_id (RecipeViewSerializer.data ctx1 db obj) ∧
  rv_tags (RecipeViewSerializer.data ctx2 db obj)
  = rv_tags (RecipeViewSerializer.data ctx1 db obj) ∧
  rv_ingredients (RecipeViewSerializer.data ctx2 db obj)
  = rv_ingredients (RecipeViewSerializer.data ctx1 db obj) ∧
  rv_name (RecipeViewSerializer.data ctx2 db obj)
  = rv_name (RecipeViewSerializer.data ctx1 db obj) ∧
  rv_image (RecipeViewSerializer.data ctx2 db obj)
  = rv_image (RecipeViewSerializer.data ctx1 db obj) ∧
  rv_text (RecipeViewSerializer.data ctx2 db obj)
  = rv_text (RecipeViewSerializer.data ctx1 db obj) ∧
  rv_cooking_time (RecipeViewSerializer.data ctx2 db obj)
  = rv_cooking_time (RecipeViewSerializer.data ctx1 db obj) ∧
  ud_id <$> rv_author (RecipeViewSerializer.data ctx2 db obj)
  = ud_id <$> rv_author (RecipeViewSerializer.data ctx1 db obj) ∧
  ud_email <$> rv_author (RecipeViewSerializer.data ctx2 db obj)
  = ud_email <$> rv_author (RecipeViewSerializer.data ctx1 db obj) ∧
  ud_username <$> rv_author (RecipeViewSerializer.data ctx2 db obj)
  = ud_username <$> rv_author (RecipeViewSerializer.data ctx1 db obj) ∧
  ud_first_name <$> rv_author (RecipeViewSerializer.data ctx2 db obj)
  = ud_first_name <$> rv_author (RecipeViewSerializer.data ctx1 db obj) ∧
  ud_last_name <$> rv_author (RecipeViewSerializer.data ctx2 db obj)
  = ud_last_name <$> rv_author (RecipeViewSerializer.data ctx1 db obj).
Proof.
  unfold RecipeViewSerializer.data. simpl.
  destruct (find _ (users db)) as [a|]; simpl; repeat split.
Qed.

(** X6.  A recipe is rendered whether or not its author and its ingredients
    are stored.  Its author is null exactly when no stored user has the
    author's key, and the rendering is complete, an author and an
    ingredient id on every line, exactly when the author and the ingredient
    of every ingredient-amount row of the recipe are stored. *)
Theorem view_data_complete_iff (ctx : Context) (db : Database) (obj : Recipe) :
  (rv_author (RecipeViewSerializer.data ctx db obj) = None
   ↔ ∀ a, a ∈ users db → u_id a ≠ r_author obj) ∧
  (is_Some (rv_author (RecipeViewSerializer.data ctx db obj)) ∧
   Forall (fun line => is_Some (iad_id line))
     (rv_ingredients (RecipeViewSerializer.data ctx db obj))
   ↔ (∃ a, a ∈ users db ∧ u_id a = r_author obj) ∧
     Forall (fun row => ∃ i, i ∈ ingredients db ∧ i_id i = ia_ingredient row)
            (amounts_of db (r_id obj))).
Proof.
  destruct (view_data_fields ctx db obj) as (_ & _ & Hauthor & Hlines & _).
  rewrite Hlines.
  assert (Hcomplete :
            Forall (fun line => is_Some (iad_id line))
              (RecipeViewSerializer.get_ingredients db obj)
            ↔ Forall (fun row => ∃ i, i ∈ ingredients db ∧ i_id i = ia_ingredient row)
                     (amounts_of db (r_id obj))).
  { unfold RecipeViewSerializer.get_ingredients.
    rewrite Forall_fmap. apply Forall_iff. intros row. apply line_id_iff. }
  rewrite Hcomplete.
  destruct (rv_author (RecipeViewSerializer.data ctx db obj)) as [rendered|].
  - destruct Hauthor as (a & Hin & Hid & _). split.
    + split; [discriminate|]. intros Hnone. by destruct (Hnone a Hin).
    + split.
      * intros [_ Hall]. split; [by exists a|done].
      * intros [_ Hall]. split; [by eexists|done].
  - split.
    + by split.
    + split.
      * by intros [[rendered Hr] _].
      * intros [(a & Hin & Hid) _]. by destruct (Hauthor a Hin).
Qed.

Lemma view_data_complete_iff_witness :
  rv_author
    (RecipeViewSerializer.data (Sample.ctx AnonymousUser)
       (set_recipes Sample.db
          [{| r_id := 1; r_name := "pancakes"; r_image := "recipes/pancakes.png";
              r_text := "mix and fry"; r_cooking_time := 20; r_author := 9;
              r_last_editor := None |}] 3)
       {| r_id := 1; r_name := "pancakes"; r_image := "recipes/pancakes.png";
          r_text := "mix and fry"; r_cooking_time := 20; r_author := 9;
          r_last_editor := None |})
  = None.
Proof.
  apply (view_data_complete_iff (Sample.ctx AnonymousUser)).
  intros a Hin.
  repeat (apply elem_of_cons in Hin as [->|Hin]; [discriminate|]).
  by apply elem_of_nil in Hin.
Defined.

(** ** The field validators, case by case *)

Lemma check_amounts_cases (data : list IngredientEntry) :
  (RecipeCreateUpdateSerializer.check_amounts data = Ok tt ∧
   Forall (fun e => 0 < ie_amount e) data) ∨
  (RecipeCreateUpdateSerializer.check_amounts data
   = Raise (ValidationError "Количество должно быть больше нуля.") ∧
   ¬ Forall (fun e => 0 < ie_amount e) data).
Proof.
  induction data as [|x data IH]; simpl; [by left|].
  destruct (Z.leb_spec (ie_amount x) 0) as [Hle|Hlt].
  - right. split; [done|]. intros Hall. apply Forall_cons in Hall as [Hx _]. lia.
  - destruct IH as [[Hok Hall]|[Hraise Hnot]].
    + left. split; [done|]. by constructor.
    + right. split; [done|]. intros Hall. apply Forall_cons in Hall as [_ Hall].
      by apply Hnot.
Qed.

Lemma len_set_eqb (l : list nat) :
  Nat.eqb (length l) (len_set l) = true ↔ NoDup l.
Proof. rewrite Nat.eqb_eq, <- len_set_NoDup. split; congruence. Qed.

(** X7.  [validate_ingredients] returns its argument unchanged exactly when
    the list is not empty, repeats no ingredient id and has only positive
    amounts.  Otherwise the first failing check names the error: emptiness
    before uniqueness, uniqueness before the amounts. *)
Theorem validate_ingredients_cases (data : list IngredientEntry) :
  (∀ out, RecipeCreateUpdateSerializer.validate_ingredients data = Ok out
          ↔ out = data ∧ data ≠ [] ∧
            NoDup ((fun i => i_id (ie_id i)) <$> data) ∧
            Forall (fun e => 0 < ie_amount e) data) ∧
  (data = [] →
     RecipeCreateUpdateSerializer.validate_ingredients data
     = Raise (ValidationError "Нужен хотя бы один ингредиент.")) ∧
  (data ≠ [] → ¬ NoDup ((fun i => i_id (ie_id i)) <$> data) →
     RecipeCreateUpdateSerializer.validate_ingredients data
     = Raise (ValidationError "Ингредиенты должы быть уникальными.")) ∧
  (data ≠ [] → NoDup ((fun i => i_id (ie_id i)) <$> data) →
   ¬ Forall (fun e => 0 < ie_amount e) data →
     RecipeCreateUpdateSerializer.validate_ingredients data
     = Raise (ValidationError "Количество должно быть больше нуля.")).
Proof.
  unfold RecipeCreateUpdateSerializer.validate_ingredients.
  pose proof (len_set_eqb ((fun i => i_id (ie_id i)) <$> data)) as Hlen.
  rewrite length_fmap in Hlen.
  case_bool_decide as Hempty.
  { repeat apply conj; try done. intros out. split; [discriminate|]. tauto. }
  destruct (Nat.eqb (length data) _) eqn:Heqb; simpl.
  - assert (Hnd : NoDup ((fun i => i_id (ie_id i)) <$> data)) by by apply Hlen.
    destruct (check_amounts_cases data) as [[-> Hall]|[-> Hnot]]; simpl.
    + repeat apply conj; try done. intros out. split.
      * by intros [= <-].
      * by intros (-> & _).
    + repeat apply conj; try done. intros out. split; [discriminate|]. tauto.
  - assert (Hnd : ¬ NoDup ((fun i => i_id (ie_id i)) <$> data)).
    { intros Hnd. apply Hlen in Hnd. discriminate Hnd. }
    repeat apply conj; try done. intros out. split; [discriminate|]. tauto.
Qed.

(** X8.  [validate_tags] returns its argument unchanged exactly when the
    list is not empty and repeats no tag id; an empty list is reported as
    such, a repeated tag as a uniqueness error. *)
Theorem validate_tags_cases (data : list Tag) :
  (∀ out, RecipeCreateUpdateSerializer.validate_tags data = Ok out
          ↔ out = data ∧ data ≠ [] ∧ NoDup (t_id <$> data)) ∧
  (data = [] →
     RecipeCreateUpdateSerializer.validate_tags data
     = Raise (ValidationError "Нужен хотя бы один тег.")) ∧
  (data ≠ [] → ¬ NoDup (t_id <$> data) →
     RecipeCreateUpdateSerializer.validate_tags data
     = Raise (ValidationError "Теги должны быть уникальными.")).
Proof.
  unfold RecipeCreateUpdateSerializer.validate_tags.
  pose proof (len_set_eqb (t_id <$> data)) as Hlen.
  rewrite length_fmap in Hlen.
  case_bool_decide as Hempty.
  { repeat apply conj; try done. intros out. split; [discriminate|]. tauto. }
  destruct (Nat.eqb (length data) _) eqn:Heqb; simpl.
  - assert (Hnd : NoDup (t_id <$> data)) by by apply Hlen.
    repeat apply conj; try done. intros out. split.
    + by intros [= <-].
    + by intros (-> & _).
  - assert (Hnd : ¬ NoDup (t_id <$> data)).
    { intros Hnd. apply Hlen in Hnd. discriminate Hnd. }
    repeat apply conj; try done. intros out. split; [discriminate|]. tauto.
Qed.

(** X9.  [validate_cooking_time] returns its argument unchanged exactly when
    it is an int instance with a positive value, which includes the boolean
    True; it never raises anything but a validation error, with one message
    for a value that is not an int and another for an int that is not
    positive. *)
Theorem validate_cooking_time_cases (data : PyValue) :
  (∀ out, RecipeCreateUpdateSerializer.validate_cooking_time data = Ok out
          ↔ out = data ∧ ∃ z, int_value data = Some z ∧ 0 < z) ∧
  (int_value data = None →
     RecipeCreateUpdateSerializer.validate_cooking_time data
     = Raise (ValidationError "Неверный формат, ожидается целое позитивное число.")) ∧
  (∀ z, int_value data = Some z → z ≤ 0 →
     RecipeCreateUpdateSerializer.validate_cooking_time data
     = Raise (ValidationError "Минимальное время готовки должно быть больше нуля")) ∧
  (∀ e, RecipeCreateUpdateSerializer.validate_cooking_time data = Raise e →
        ∃ detail, e = ValidationError detail) ∧
  RecipeCreateUpdateSerializer.validate_cooking_time (PyBool true) = Ok (PyBool true).
Proof.
  unfold RecipeCreateUpdateSerializer.validate_cooking_time.
  destruct data as [|b|z|s]; simpl.
  - repeat apply conj; try done.
    + intros out. split; [discriminate|]. by intros (_ & z & Hz & _).
    + intros e [= <-]. by eexists.
  - destruct b; simpl; repeat apply conj; try done.
    + intros out. split; [by intros [= <-]; split; [|exists 1]|by intros [-> _]].
    + intros z [= <-]. lia.
    + intros out. split; [discriminate|]. intros (_ & z & [= <-] & Hz). lia.
    + intros e [= <-]. by eexists.
  - destruct (Z.leb_spec z 0) as [Hle|Hlt]; repeat apply conj; try done.
    + intros out. split; [discriminate|]. intros (_ & z' & [= <-] & Hz). lia.
    + intros e [= <-]. by eexists.
    + intros out. split; [by intros [= <-]; split; [|exists z]|by intros [-> _]].
    + intros z' [= <-]. lia.
  - repeat apply conj; try done.
    + intros out. split; [discriminate|]. by intros (_ & z & Hz & _).
    + intros e [= <-]. by eexists.
Qed.

(** ** [add_ingredients] and [create] *)

Lemma filter_amount_rows_other (rid other : nat) (ings : list IngredientEntry) :
  other ≠ rid →
  filter (fun row => ia_recipe row = other) (amount_row rid <$> ings) = [].
Proof.
  intros Hne. induction ings as [|e ings IH]; [done|].
  rewrite fmap_cons, filter_cons_False; [done|]. simpl. congruence.
Qed.

(** X10.  [add_ingredients] returns exactly when every amount fits its
    column.  It has then appended one ingredient-amount row per entry to the
    rows of the recipe, in the order of the entries and without looking at
    what is already there; the rows of every other recipe and all other
    tables stay as they are.  Otherwise it raises at the insert of an amount
    that does not fit. *)
Theorem add_ingredients_appends
  (db : Database) (ings : list IngredientEntry) (rid : nat) :
  (Forall (fun e => holds (amount_column (limits db)) (ie_amount e) = true) ings →
   ∃ db',
     RecipeCreateUpdateSerializer.add_ingredients db ings rid = Ok db' ∧
     amounts_of db' rid = (amounts_of db rid ++ (amount_row rid <$> ings))%list ∧
     (∀ other, other ≠ rid → amounts_of db' other = amounts_of db other) ∧
     set_ingredient_amounts db' (ingredient_amounts db) = db) ∧
  (¬ Forall (fun e => holds (amount_column (limits db)) (ie_amount e) = true) ings →
   RecipeCreateUpdateSerializer.add_ingredients db ings rid = Raise OutOfRange).
Proof.
  split.
  - intros Hfit. eexists. split; [by apply add_ingredients_fits|].
    unfold amounts_of. simpl. repeat apply conj.
    + by rewrite filter_app, filter_amount_rows.
    + intros other Hne. by rewrite filter_app, filter_amount_rows_other, app_nil_r.
    + by destruct db.
  - revert db. induction ings as [|e ings IH]; intros db Hnot.
    + exfalso. apply Hnot. constructor.
    + simpl. unfold IngredientAmount_objects_create.
      destruct (holds _ (ie_amount e)) eqn:Hfit; [|done]. simpl.
      apply IH. simpl. intros Hall. apply Hnot. by constructor.
Qed.

Lemma add_ingredients_appends_witness :
  ∃ db',
    RecipeCreateUpdateSerializer.add_ingredients Sample.db
      [{| ie_id := Sample.milk; ie_amount := 3 |}] 1 = Ok db' ∧
    amounts_of db' 1
    = (amounts_of Sample.db 1
       ++ (amount_row 1 <$> [{| ie_id := Sample.milk; ie_amount := 3 |}]))%list ∧
    (∀ other, other ≠ 1%nat → amounts_of db' other = amounts_of Sample.db other) ∧
    set_ingredient_amounts db' (ingredient_amounts Sample.db) = Sample.db.
Proof.
  apply (proj1 (add_ingredients_appends Sample.db
                  [{| ie_id := Sample.milk; ie_amount := 3 |}] 1%nat)).
  by repeat constructor.
Defined.

Lemma create_shape (db db' : Database) (vd : ValidatedData) (r : Recipe) :
  RecipeCreateUpdateSerializer.create db vd = Ok (db', r) →
  ∃ ings ts image a ct,
    vd_ingredients vd = Some ings ∧ vd_tags vd = Some ts ∧
    vd_image vd = Some image ∧ vd_author vd = Some (Authenticated a) ∧
    vd_cooking_time vd = Some ct ∧
    r_id r = next_recipe_id db ∧ r_image r = image ∧ r_author r = a ∧
    r_cooking_time r = ct ∧
    r_name r = default "" (vd_name vd) ∧ r_text r = default "" (vd_text vd) ∧
    db' = tags_set
            (set_ingredient_amounts
               (set_recipes db (recipes db ++ [r]) (S (next_recipe_id db)))
               (ingredient_amounts db ++ (amount_row (r_id r) <$> ings)))
            (r_id r) ts.
Proof.
  unfold RecipeCreateUpdateSerializer.create, Recipe_objects_create.
  destruct (vd_ingredients vd) as [ings|]; simpl; [|discriminate].
  destruct (vd_tags vd) as [ts|]; simpl; [|discriminate].
  destruct (vd_image vd) as [image|]; simpl; [|discriminate].
  destruct (vd_author vd) as [[|a]|]; simpl; try discriminate.
  all: destruct (vd_last_editor vd) as [[|e]|], (vd_cooking_time vd) as [ct|];
    simpl; try discriminate.
  all: destruct (holds _ ct); simpl; [|discriminate].
  all: destruct (RecipeCreateUpdateSerializer.add_ingredients _ ings _)
         as [db1|err] eqn:Hadd; simpl; [|discriminate].
  all: intros [= <- <-]; apply add_ingredients_spec in Hadd as [_ ->]; simpl.
  all: by exists ings, ts, image, a, ct.
Qed.

(** X11.  [create] reads its three popped keys in the order ingredients,
    tags, image, and a missing one raises KeyError for the first key that is
    missing, whatever else the payload holds. *)
Theorem create_missing_key (db : Database) (vd : ValidatedData) :
  (vd_ingredients vd = None →
     RecipeCreateUpdateSerializer.create db vd = Raise (KeyError "ingredients")) ∧
  (is_Some (vd_ingredients vd) → vd_tags vd = None →
     RecipeCreateUpdateSerializer.create db vd = Raise (KeyError "tags")) ∧
  (is_Some (vd_ingredients vd) → is_Some (vd_tags vd) → vd_image vd = None →
     RecipeCreateUpdateSerializer.create db vd = Raise (KeyError "image")).
Proof.
  unfold RecipeCreateUpdateSerializer.create.
  repeat apply conj.
  - by intros ->.
  - by intros [ings ->] ->.
  - by intros [ings ->] [ts ->] ->.
Qed.

Lemma create_missing_key_witness :
  RecipeCreateUpdateSerializer.create Sample.db SampleRuns.no_tags_payload
  = Raise (KeyError "tags").
Proof.
  apply (proj1 (proj2 (create_missing_key Sample.db SampleRuns.no_tags_payload)));
    [by eexists|reflexivity].
Defined.

(** X12.  A successful [create] stores the new recipe under the next primary
    key of the sequence, after the recipes already stored, and advances the
    sequence; it appends one ingredient-amount row per entry of the payload,
    and the tags of the new recipe are exactly the tags of the payload. *)
Theorem create_effect (db db' : Database) (vd : ValidatedData) (r : Recipe) :
  RecipeCreateUpdateSerializer.create db vd = Ok (db', r) →
  r_id r = next_recipe_id db ∧
  next_recipe_id db' = S (next_recipe_id db) ∧
  recipes db' = (recipes db ++ [r])%list ∧
  ingredient_amounts db'
  = (ingredient_amounts db
     ++ (amount_row (r_id r) <$> default [] (vd_ingredients vd)))%list ∧
  (∀ pk, pk ∈ recipe_tag_ids db' (r_id r)
         ↔ pk ∈ t_id <$> default [] (vd_tags vd)).
Proof.
  intros Hc.
  apply create_shape in Hc
    as (ings & ts & image & a & ct & -> & -> & _ & _ & _ & Hid & _ & _ & _ & _ & _ & ->).
  simpl. repeat apply conj; try done.
  intros pk. apply tags_set_ids.
Qed.

Lemma create_effect_witness :
  r_id SampleCreate.created_recipe = next_recipe_id Sample.db ∧
  next_recipe_id SampleCreate.created_db = S (next_recipe_id Sample.db) ∧
  recipes SampleCreate.created_db
  = (recipes Sample.db ++ [SampleCreate.created_recipe])%list ∧
  ingredient_amounts SampleCreate.created_db
  = (ingredient_amounts Sample.db
     ++ (amount_row (r_id SampleCreate.created_recipe)
           <$> default [] (vd_ingredients SampleCreate.bob_payload)))%list ∧
  (∀ pk, pk ∈ recipe_tag_ids SampleCreate.created_db (r_id SampleCreate.created_recipe)
         ↔ pk ∈ t_id <$> default [] (vd_tags SampleCreate.bob_payload)).
Proof.
  apply (create_effect Sample.db SampleCreate.created_db SampleCreate.bob_payload
           SampleCreate.created_recipe).
  vm_compute. reflexivity.
Defined.

(** X13.  A successful [create] leaves everything else as it was: the
    users, tags, ingredients, favourites, shopping lists and subscriptions,
    and the ingredient-amount rows and tags of every other recipe. *)
Theorem create_frame (db db' : Database) (vd : ValidatedData) (r : Recipe) :
  RecipeCreateUpdateSerializer.create db vd = Ok (db', r) →
  users db' = users db ∧ tags db' = tags db ∧ ingredients db' = ingredients db ∧
  favourite_list db' = favourite_list db ∧ shopping_list db' = shopping_list db ∧
  subscriptions db' = subscriptions db ∧
  (∀ other, other ≠ r_id r →
     amounts_of db' other = amounts_of db other ∧
     ∀ pk, pk ∈ recipe_tag_ids db' other ↔ pk ∈ recipe_tag_ids db other).
Proof.
  intros Hc.
  apply create_shape in Hc
    as (ings & ts & image & a & ct & _ & _ & _ & _ & _ & Hid & _ & _ & _ & _ & _ & ->).
  simpl. repeat apply conj; try done.
  intros other Hne. rewrite Hid in Hne. split.
  - unfold amounts_of. simpl. rewrite Hid.
    by rewrite filter_app, filter_amount_rows_other, app_nil_r.
  - intros pk. rewrite Hid, tags_set_other by done.
    by rewrite !elem_of_recipe_tag_ids.
Qed.

Lemma create_frame_witness :
  users SampleCreate.created_db = users Sample.db ∧
  tags SampleCreate.created_db = tags Sample.db ∧
  ingredients SampleCreate.created_db = ingredients Sample.db ∧
  favourite_list SampleCreate.created_db = favourite_list Sample.db ∧
  shopping_list SampleCreate.created_db = shopping_list Sample.db ∧
  subscriptions SampleCreate.created_db = subscriptions Sample.db ∧
  (∀ other, other ≠ r_id SampleCreate.created_recipe →
     amounts_of SampleCreate.created_db other = amounts_of Sample.db other ∧
     ∀ pk, pk ∈ recipe_tag_ids SampleCreate.created_db other
           ↔ pk ∈ recipe_tag_ids Sample.db other).
Proof.
  apply (create_frame Sample.db SampleCreate.created_db SampleCreate.bob_payload
           SampleCreate.created_recipe).
  vm_compute. reflexivity.
Defined.

(** ** [update] *)

Lemma filter_all {A : Type} (P : A → Prop) `{∀ x, Decision (P x)} (l : list A) :
  Forall P l → filter P l = l.
Proof.
  induction 1 as [|x l Hx _ IH]; [done|].
  by rewrite filter_cons_True, IH.
Qed.

Lemma filter_none {A : Type} (P : A → Prop) `{∀ x, Decision (P x)} (l : list A) :
  Forall (fun x => ¬ P x) l → filter P l = [].
Proof.
  induction 1 as [|x l Hx _ IH]; [done|].
  by rewrite filter_cons_False.
Qed.

Lemma filter_other_cleared (rows : list IngredientAmount) (rid other : nat) :
  other ≠ rid →
  filter (fun row => ia_recipe row = other)
         (filter (fun row => ia_recipe row ≠ rid) rows)
  = filter (fun row => ia_recipe row = other) rows.
Proof.
  intros Hne. induction rows as [|row rows IH]; [done|].
  destruct (decide (ia_recipe row = rid)) as [Heq|Hne'].
  - rewrite (filter_cons_False (fun row => ia_recipe row ≠ rid)) by tauto.
    rewrite (filter_cons_False (fun row => ia_recipe row = other)); [done|].
    congruence.
  - rewrite (filter_cons_True (fun row => ia_recipe row ≠ rid)) by done.
    rewrite !(filter_cons (fun row => ia_recipe row = other)).
    by rewrite IH.
Qed.

Lemma save_row_frame (db : Database) (instance : Recipe) :
  users (save_row db instance) = users db ∧
  tags (save_row db instance) = tags db ∧
  ingredients (save_row db instance) = ingredients db ∧
  favourite_list (save_row db instance) = favourite_list db ∧
  shopping_list (save_row db instance) = shopping_list db ∧
  subscriptions (save_row db instance) = subscriptions db ∧
  next_recipe_id (save_row db instance) = next_recipe_id db.
Proof. unfold save_row. by destruct (existsb _ (recipes db)). Qed.

Lemma save_row_others (db : Database) (instance : Recipe) :
  filter (fun r => r_id r ≠ r_id instance) (recipes (save_row db instance))
  = filter (fun r => r_id r ≠ r_id instance) (recipes db).
Proof.
  unfold save_row. destruct (existsb _ (recipes db)); simpl.
  - induction (recipes db) as [|r rs IH]; [done|].
    rewrite fmap_cons. destruct (Nat.eqb_spec (r_id r) (r_id instance)) as [Heq|Hne].
    + rewrite !filter_cons_False by tauto. exact IH.
    + rewrite !filter_cons_True by done. by rewrite IH.
  - rewrite filter_app. rewrite (filter_cons_False _ instance) by tauto.
    by rewrite app_nil_r.
Qed.

Lemma replace_same (r : Recipe) (l : list Recipe) :
  (∀ x, x ∈ l → r_id x = r_id r → x = r) →
  (fun x => if Nat.eqb (r_id x) (r_id r) then r else x) <$> l = l.
Proof.
  induction l as [|x xs IH]; intros Huniq; [done|].
  rewrite fmap_cons, IH.
  - destruct (Nat.eqb_spec (r_id x) (r_id r)) as [Heq|Hne]; [|done].
    by rewrite (Huniq x ltac:(left) Heq).
  - intros y Hy. apply Huniq. by right.
Qed.

Lemma save_row_same (db : Database) (r : Recipe) :
  r ∈ recipes db →
  (∀ x, x ∈ recipes db → r_id x = r_id r → x = r) →
  save_row db r = db.
Proof.
  intros Hin Huniq. unfold save_row.
  assert (Hex : existsb (fun x => Nat.eqb (r_id x) (r_id r)) (recipes db) = true).
  { apply existsb_exists. exists r. split; [by apply list_elem_of_In|].
    apply Nat.eqb_refl. }
  rewrite Hex, (replace_same r (recipes db) Huniq). by destruct db.
Qed.

Lemma tags_set_same (db : Database) (rid : nat) (ts : list Tag) :
  (∀ pk, pk ∈ recipe_tag_ids db rid ↔ pk ∈ t_id <$> ts) →
  tags_set db rid ts = db.
Proof.
  intros Hsame. unfold tags_set.
  rewrite filter_all, filter_none.
  - simpl. rewrite app_nil_r. by destruct db.
  - apply Forall_forall. intros pk Hpk Hnot. by apply Hnot, Hsame.
  - apply Forall_forall. intros [a b] Hin. simpl.
    destruct (decide (a = rid)) as [->|Hne]; [|by left].
    right. by apply Hsame, elem_of_recipe_tag_ids.
Qed.

Lemma update_shape (ctx : Context) (db db' : Database) (instance r : Recipe)
  (vd : ValidatedData) :
  RecipeCreateUpdateSerializer.update ctx db instance vd = Ok (db', r) →
  ∃ editor ts ings author,
    default (user (request ctx)) (vd_last_editor vd) = Authenticated editor ∧
    vd_tags vd = Some ts ∧ vd_ingredients vd = Some ings ∧
    (vd_author vd = None ∧ author = None ∨
     ∃ a, vd_author vd = Some (Authenticated a) ∧ author = Some a) ∧
    r = set_attrs instance (Some editor) (vd_image vd) (vd_name vd) (vd_text vd)
          (vd_cooking_time vd) author ∧
    users db' = users db ∧ tags db' = tags db ∧ ingredients db' = ingredients db ∧
    favourite_list db' = favourite_list db ∧ shopping_list db' = shopping_list db ∧
    subscriptions db' = subscriptions db ∧ next_recipe_id db' = next_recipe_id db ∧
    recipes db' = recipes (save_row db r) ∧
    recipe_tags db' = (if bool_decide (ts = []) then recipe_tags db
                       else recipe_tags (tags_set db (r_id r) ts)) ∧
    ingredient_amounts db'
    = (if bool_decide (ings = []) then ingredient_amounts db
       else (filter (fun row => ia_recipe row ≠ r_id r) (ingredient_amounts db)
             ++ (amount_row (r_id r) <$> ings))%list).
Proof.
  unfold RecipeCreateUpdateSerializer.update, Recipe_save.
  destruct (default _ (vd_last_editor vd)) as [|editor]; simpl; [discriminate|].
  destruct (vd_tags vd) as [ts|]; simpl; [|discriminate].
  destruct (vd_ingredients vd) as [ings|]; simpl; [|discriminate].
  destruct (vd_author vd) as [[|a]|]; simpl; try discriminate.
  all: destruct (holds _ _); simpl; [|discriminate].
  all: destruct (bool_decide (ings = [])) eqn:Hnil; simpl.
  all: try (destruct (RecipeCreateUpdateSerializer.add_ingredients _ ings _)
              as [db3|err] eqn:Hadd; simpl; [|discriminate];
            apply add_ingredients_spec in Hadd as [_ ->]).
  all: intros [= <- <-]; eexists editor, ts, ings, _.
  all: split; [reflexivity|]; split; [reflexivity|]; split; [reflexivity|].
  all: split; [first [by left | right; by eexists]|].
  all: split; [reflexivity|].
  all: match goal with
       | |- context [save_row ?d ?i] =>
           destruct (save_row_frame d i) as (Hu & Ht & Hi & Hf & Hs & Hsub & Hn);
           destruct (save_row_other_tables d i) as [Hamounts Htags]
       end.
  all: rewrite Hnil; destruct (bool_decide (ts = [])); simpl.
  all: unfold tags_set, recipe_tag_ids; simpl; rewrite ?Hamounts, ?Htags.
  all: repeat apply conj; done.
Qed.

(** A successful [update] wrote integers that fit their columns. *)
Lemma update_fits (ctx : Context) (db db' : Database) (instance r : Recipe)
  (vd : ValidatedData) (ings : list IngredientEntry) :
  RecipeCreateUpdateSerializer.update ctx db instance vd = Ok (db', r) →
  vd_ingredients vd = Some ings →
  limits db' = limits db ∧
  holds (cooking_time_column (limits db)) (r_cooking_time r) = true ∧
  Forall (fun e => holds (amount_column (limits db)) (ie_amount e) = true) ings.
Proof.
  unfold RecipeCreateUpdateSerializer.update, Recipe_save.
  destruct (default _ (vd_last_editor vd)) as [|editor]; simpl; [discriminate|].
  destruct (vd_tags vd) as [ts|]; simpl; [|discriminate].
  intros Hu Hings. rewrite Hings in Hu. simpl in Hu. revert Hu.
  destruct (vd_author vd) as [[|a]|]; simpl; try discriminate.
  all: destruct (holds _ _) eqn:Htime; simpl; [|discriminate].
  all: destruct (bool_decide (ings = [])) eqn:Hnil; simpl.
  all: try (destruct (RecipeCreateUpdateSerializer.add_ingredients _ ings _)
              as [db3|err] eqn:Hadd; simpl; [|discriminate];
            apply add_ingredients_spec in Hadd as [Hfit ->]).
  all: intros [= <- <-].
  all: try (apply bool_decide_eq_true in Hnil as ->).
  all: destruct (bool_decide (ts = [])); simpl in *.
  all: rewrite ?save_row_limits in *; done.
Qed.

(** X14.  A successful [update] touches one recipe only: the users, tags,
    ingredients, favourites, shopping lists, subscriptions and the sequence
    stay as they were, and so do the stored recipes with another primary
    key, their ingredient-amount rows and their tags. *)
Theorem update_frame (ctx : Context) (db db' : Database) (instance r : Recipe)
  (vd : ValidatedData) :
  RecipeCreateUpdateSerializer.update ctx db instance vd = Ok (db', r) →
  users db' = users db ∧ tags db' = tags db ∧ ingredients db' = ingredients db ∧
  favourite_list db' = favourite_list db ∧ shopping_list db' = shopping_list db ∧
  subscriptions db' = subscriptions db ∧ next_recipe_id db' = next_recipe_id db ∧
  filter (fun x => r_id x ≠ r_id instance) (recipes db')
  = filter (fun x => r_id x ≠ r_id instance) (recipes db) ∧
  (∀ other, other ≠ r_id instance →
     amounts_of db' other = amounts_of db other ∧
     ∀ pk, pk ∈ recipe_tag_ids db' other ↔ pk ∈ recipe_tag_ids db other).
Proof.
  intros Hu. apply update_shape in Hu
    as (editor & ts & ings & author & _ & _ & _ & _ & -> & Hus & Hts & Hin & Hf & Hs
        & Hsub & Hn & Hrec & Htags & Hamounts).
  repeat apply conj; try done.
  - rewrite Hrec. apply (save_row_others db (set_attrs instance _ _ _ _ _ _)).
  - intros other Hne. split.
    + unfold amounts_of. rewrite Hamounts.
      destruct (bool_decide (ings = [])); [done|]. simpl.
      by rewrite filter_app, filter_amount_rows_other, app_nil_r,
        filter_other_cleared.
    + intros pk. rewrite !elem_of_recipe_tag_ids, Htags.
      destruct (bool_decide (ts = [])); [done|].
      rewrite <- !elem_of_recipe_tag_ids. by apply tags_set_other.
Qed.

Lemma update_frame_witness :
  users SampleRuns.updated_db = users Sample.db ∧
  tags SampleRuns.updated_db = tags Sample.db ∧
  ingredients SampleRuns.updated_db = ingredients Sample.db ∧
  favourite_list SampleRuns.updated_db = favourite_list Sample.db ∧
  shopping_list SampleRuns.updated_db = shopping_list Sample.db ∧
  subscriptions SampleRuns.updated_db = subscriptions Sample.db ∧
  next_recipe_id SampleRuns.updated_db = next_recipe_id Sample.db ∧
  filter (fun x => r_id x ≠ r_id Sample.pancakes) (recipes SampleRuns.updated_db)
  = filter (fun x => r_id x ≠ r_id Sample.pancakes) (recipes Sample.db) ∧
  (∀ other, other ≠ r_id Sample.pancakes →
     amounts_of SampleRuns.updated_db other = amounts_of Sample.db other ∧
     ∀ pk, pk ∈ recipe_tag_ids SampleRuns.updated_db other
           ↔ pk ∈ recipe_tag_ids Sample.db other).
Proof.
  apply (update_frame (Sample.ctx (Authenticated 2)) Sample.db SampleRuns.updated_db
           Sample.pancakes SampleRuns.updated_recipe SampleUpdate.payload).
  vm_compute. reflexivity.
Defined.

(** X15.  The two list guards of [update]: with an empty tag list the links
    between recipes and tags are left as they were, and with an empty
    ingredient list the ingredient-amount rows are left as they were;
    nothing is cleared. *)
Theorem update_empty_lists_keep (ctx : Context) (db db' : Database)
  (instance r : Recipe) (vd : ValidatedData) :
  RecipeCreateUpdateSerializer.update ctx db instance vd = Ok (db', r) →
  (vd_tags vd = Some [] → recipe_tags db' = recipe_tags db) ∧
  (vd_ingredients vd = Some [] → ingredient_amounts db' = ingredient_amounts db).
Proof.
  intros Hu. apply update_shape in Hu
    as (editor & ts & ings & author & _ & Hts & Hings & _ & _ & _ & _ & _ & _ & _
        & _ & _ & _ & Htags & Hamounts).
  split.
  - rewrite Hts. intros [= ->]. by rewrite Htags.
  - rewrite Hings. intros [= ->]. by rewrite Hamounts.
Qed.

Lemma update_empty_lists_keep_witness :
  RecipeCreateUpdateSerializer.update (Sample.ctx (Authenticated 2)) Sample.db
    Sample.pancakes SampleRuns.rename_payload
  = Ok (SampleRuns.renamed_db, SampleRuns.renamed_recipe) ∧
  recipe_tags SampleRuns.renamed_db = recipe_tags Sample.db ∧
  ingredient_amounts SampleRuns.renamed_db = ingredient_amounts Sample.db.
Proof.
  assert (Hrun : RecipeCreateUpdateSerializer.update (Sample.ctx (Authenticated 2))
                   Sample.db Sample.pancakes SampleRuns.rename_payload
                 = Ok (SampleRuns.renamed_db, SampleRuns.renamed_recipe)).
  { vm_compute. reflexivity. }
  split; [exact Hrun|].
  destruct (update_empty_lists_keep _ _ _ _ _ _ Hrun) as [Htags Hamounts].
  split; [by apply Htags|by apply Hamounts].
Defined.

(** X16.  For an editor who is a stored user, [update] needs both list keys:
    a payload without [tags] raises KeyError for tags, and one with tags
    but without [ingredients] raises KeyError for ingredients, whatever
    else the payload holds. *)
Theorem update_missing_key (ctx : Context) (db : Database) (instance : Recipe)
  (vd : ValidatedData) (editor : nat) :
  default (user (request ctx)) (vd_last_editor vd) = Authenticated editor →
  (vd_tags vd = None →
     RecipeCreateUpdateSerializer.update ctx db instance vd
     = Raise (KeyError "tags")) ∧
  (is_Some (vd_tags vd) → vd_ingredients vd = None →
     RecipeCreateUpdateSerializer.update ctx db instance vd
     = Raise (KeyError "ingredients")).
Proof.
  intros Heditor. unfold RecipeCreateUpdateSerializer.update.
  rewrite Heditor. simpl. split.
  - by intros ->.
  - by intros [ts ->] ->.
Qed.

Lemma update_missing_key_witness :
  RecipeCreateUpdateSerializer.update (Sample.ctx (Authenticated 2)) Sample.db
    Sample.pancakes SampleRuns.no_tags_payload
  = Raise (KeyError "tags").
Proof.
  apply (update_missing_key (Sample.ctx (Authenticated 2)) Sample.db Sample.pancakes
           SampleRuns.no_tags_payload 2%nat); reflexivity.
Defined.

(** X17.  The editor is settled first: when neither the payload's
    [last_editor] nor, by default, the request's user is a stored user,
    [update] raises a value error before any key is read, also for a
    payload that lacks its keys. *)
Theorem update_anonymous_editor (ctx : Context) (db : Database) (instance : Recipe)
  (vd : ValidatedData) :
  default (user (request ctx)) (vd_last_editor vd) = AnonymousUser →
  ∃ msg, RecipeCreateUpdateSerializer.update ctx db instance vd
         = Raise (ValueError msg).
Proof.
  intros Heditor. unfold RecipeCreateUpdateSerializer.update.
  rewrite Heditor. simpl. by eexists.
Qed.

Lemma update_anonymous_editor_witness :
  ∃ msg, RecipeCreateUpdateSerializer.update (Sample.ctx AnonymousUser) Sample.db
           Sample.pancakes SampleRuns.no_tags_payload
         = Raise (ValueError msg).
Proof.
  apply (update_anonymous_editor (Sample.ctx AnonymousUser) Sample.db
           Sample.pancakes SampleRuns.no_tags_payload).
  reflexivity.
Defined.

(** X18.  A successful [update] keeps the primary key of the recipe and
    every scalar field the payload does not carry: name, image, text and
    cooking time are the payload's when it has them and the instance's
    otherwise, and the author is kept when the payload names none.  The
    returned recipe is the stored row of that key. *)
Theorem update_keeps_absent_fields (ctx : Context) (db db' : Database)
  (instance r : Recipe) (vd : ValidatedData) :
  RecipeCreateUpdateSerializer.update ctx db instance vd = Ok (db', r) →
  r_id r = r_id instance ∧
  r_name r = default (r_name instance) (vd_name vd) ∧
  r_image r = default (r_image instance) (vd_image vd) ∧
  r_text r = default (r_text instance) (vd_text vd) ∧
  r_cooking_time r = default (r_cooking_time instance) (vd_cooking_time vd) ∧
  (vd_author vd = None → r_author r = r_author instance) ∧
  (∀ x, x ∈ recipes db' → r_id x = r_id instance → x = r).
Proof.
  intros Hu. apply update_shape in Hu
    as (editor & ts & ings & author & _ & _ & _ & Hauthor & -> & _ & _ & _ & _ & _
        & _ & _ & Hrec & _ & _).
  simpl. repeat apply conj; try done.
  - intros Hnone. destruct Hauthor as [[_ ->]|(a & Ha & _)]; [done|congruence].
  - rewrite Hrec. apply (save_row_stored db (set_attrs instance _ _ _ _ _ _)).
Qed.

Lemma update_keeps_absent_fields_witness :
  r_id SampleRuns.renamed_recipe = r_id Sample.pancakes ∧
  r_name SampleRuns.renamed_recipe
  = default (r_name Sample.pancakes) (vd_name SampleRuns.rename_payload) ∧
  r_image SampleRuns.renamed_recipe
  = default (r_image Sample.pancakes) (vd_image SampleRuns.rename_payload) ∧
  r_text SampleRuns.renamed_recipe
  = default (r_text Sample.pancakes) (vd_text SampleRuns.rename_payload) ∧
  r_cooking_time SampleRuns.renamed_recipe
  = default (r_cooking_time Sample.pancakes)
      (vd_cooking_time SampleRuns.rename_payload) ∧
  (vd_author SampleRuns.rename_payload = None →
     r_author SampleRuns.renamed_recipe = r_author Sample.pancakes) ∧
  (∀ x, x ∈ recipes SampleRuns.renamed_db → r_id x = r_id Sample.pancakes →
        x = SampleRuns.renamed_recipe).
Proof.
  apply (update_keeps_absent_fields (Sample.ctx (Authenticated 2)) Sample.db
           SampleRuns.renamed_db Sample.pancakes SampleRuns.renamed_recipe
           SampleRuns.rename_payload).
  vm_compute. reflexivity.
Defined.

Lemma update_run (ctx : Context) (db : Database) (instance : Recipe)
  (vd : ValidatedData) (editor : nat) (ts : list Tag) (ings : list IngredientEntry)
  (author : option nat) (r : Recipe) :
  default (user (request ctx)) (vd_last_editor vd) = Authenticated editor →
  vd_tags vd = Some ts → vd_ingredients vd = Some ings →
  (vd_author vd = None ∧ author = None ∨
   ∃ a, vd_author vd = Some (Authenticated a) ∧ author = Some a) →
  r = set_attrs instance (Some editor) (vd_image vd) (vd_name vd) (vd_text vd)
        (vd_cooking_time vd) author →
  holds (cooking_time_column (limits db)) (r_cooking_time r) = true →
  Forall (fun e => holds (amount_column (limits db)) (ie_amount e) = true) ings →
  RecipeCreateUpdateSerializer.update ctx db instance vd
  = Ok (if bool_decide (ings = [])
        then (if bool_decide (ts = []) then save_row db r
              else tags_set (save_row db r) (r_id r) ts)
        else set_ingredient_amounts
               (if bool_decide (ts = []) then save_row db r
                else tags_set (save_row db r) (r_id r) ts)
               (filter (fun row => ia_recipe row ≠ r_id r)
                  (ingredient_amounts
                     (if bool_decide (ts = []) then save_row db r
                      else tags_set (save_row db r) (r_id r) ts))
                ++ (amount_row (r_id r) <$> ings))%list,
        r).
Proof.
  intros Hed Hts Hings Hauthor -> Htime Hfit.
  unfold RecipeCreateUpdateSerializer.update, Recipe_save.
  rewrite Hed, Hts, Hings. simpl.
  assert (match vd_author vd with
          | Some u => do pk <- assign_user u; Ok (Some pk)
          | None => Ok None
          end = Ok author) as ->.
  { by destruct Hauthor as [[-> ->]|(a & -> & ->)]. }
  simpl in Htime |- *. rewrite Htime. simpl.
  destruct (bool_decide (ings = [])); [done|].
  rewrite add_ingredients_fits.
  - simpl. do 2 f_equal; unfold ingredients_clear, set_ingredient_amounts;
      by destruct (bool_decide (ts = [])).
  - simpl. destruct (bool_decide (ts = [])); simpl; by rewrite save_row_limits.
Qed.

Lemma set_attrs_again (instance : Recipe) (editor : option nat)
  (image name text : option string) (cooking_time : option Z) (author : option nat) :
  set_attrs (set_attrs instance editor image name text cooking_time author)
    editor image name text cooking_time author
  = set_attrs instance editor image name text cooking_time author.
Proof.
  unfold set_attrs. simpl.
  by destruct image, name, text, cooking_time, author.
Qed.

Lemma set_amounts_back (db : Database) (rows : list IngredientAmount) :
  set_ingredient_amounts (set_ingredient_amounts db rows) (ingredient_amounts db) = db.
Proof. by destruct db. Qed.

(** On the storage and the recipe that a successful [update] returned, the
    same payload writes the values that are already there.  Rows are
    compared by their columns: the keys of the ingredient-amount rows, which
    the storage hands out anew, are not part of them, and an image of the
    payload is compared as the payload gives it, not as the file it is saved
    to. *)
Lemma update_again (ctx : Context) (db db' : Database) (instance r : Recipe)
  (vd : ValidatedData) :
  RecipeCreateUpdateSerializer.update ctx db instance vd = Ok (db', r) →
  RecipeCreateUpdateSerializer.update ctx db' r vd = Ok (db', r).
Proof.
  intros Hu.
  pose proof (update_shape _ _ _ _ _ _ Hu)
    as (editor & ts & ings & author & Hed & Hts & Hings & Hauthor & Hr & _ & _ & _
        & _ & _ & _ & _ & Hrec & Htags & Hamounts).
  destruct (update_fits _ _ _ _ _ _ ings Hu Hings) as (Hlim & Htime & Hfit).
  assert (Hagain : r = set_attrs r (Some editor) (vd_image vd) (vd_name vd)
                         (vd_text vd) (vd_cooking_time vd) author).
  { rewrite Hr at 1. rewrite Hr. symmetry. apply set_attrs_again. }
  rewrite (update_run ctx db' r vd editor ts ings author r Hed Hts Hings Hauthor Hagain)
    by (by rewrite Hlim).
  assert (Hid : r_id r = r_id instance) by (by rewrite Hr).
  assert (Hsave : save_row db' r = db').
  { destruct (save_row_stored db r) as [Hin Huniq].
    apply save_row_same; rewrite Hrec; [exact Hin|exact Huniq]. }
  rewrite Hsave.
  assert (Htagged : (if bool_decide (ts = []) then db' else tags_set db' (r_id r) ts)
                    = db').
  { destruct (bool_decide (ts = [])); [done|].
    apply tags_set_same. intros pk.
    rewrite <- (tags_set_ids db (r_id r) ts pk), !elem_of_recipe_tag_ids.
    by rewrite Htags. }
  rewrite Htagged.
  destruct (bool_decide (ings = [])); [done|].
  rewrite Hamounts. rewrite filter_app.
  rewrite (filter_none _ (amount_row (r_id r) <$> ings)).
  - rewrite app_nil_r, (filter_all _ (filter _ (ingredient_amounts db))).
    + rewrite <- Hamounts. by rewrite set_ingredient_amounts_id.
    + apply Forall_forall. intros row Hrow.
      by apply list_elem_of_filter in Hrow as [Hne _].
  - apply Forall_forall. intros row Hrow Hne.
    apply list_elem_of_fmap in Hrow as (e & -> & _). by apply Hne.
Qed.

(** X19.  Running [update] again with the same payload, on the recipe and
    the storage it returned, succeeds and shows the same recipe: the same
    key, name, text, cooking time, author and last editor, the same
    ingredient lines and the same tags.  The image is the same when the
    payload carries none. *)
Theorem update_again_shows_same (ctx : Context) (db db' : Database)
  (instance r : Recipe) (vd : ValidatedData) :
  RecipeCreateUpdateSerializer.update ctx db instance vd = Ok (db', r) →
  ∃ db'' r',
    RecipeCreateUpdateSerializer.update ctx db' r vd = Ok (db'', r') ∧
    r_id r' = r_id r ∧ r_name r' = r_name r ∧ r_text r' = r_text r ∧
    r_cooking_time r' = r_cooking_time r ∧ r_author r' = r_author r ∧
    r_last_editor r' = r_last_editor r ∧
    (vd_image vd = None → r_image r' = r_image r) ∧
    RecipeViewSerializer.get_ingredients db'' r'
    = RecipeViewSerializer.get_ingredients db' r ∧
    tags_of db'' (r_id r') = tags_of db' (r_id r).
Proof.
  intros Hu. exists db', r. split; [by apply (update_again ctx db db' instance)|].
  by repeat split.
Qed.

Lemma update_again_shows_same_witness :
  ∃ db'' r',
    RecipeCreateUpdateSerializer.update (Sample.ctx (Authenticated 2))
      SampleRuns.updated_db SampleRuns.updated_recipe SampleUpdate.payload
    = Ok (db'', r') ∧
    r_id r' = r_id SampleRuns.updated_recipe ∧
    r_name r' = r_name SampleRuns.updated_recipe ∧
    r_text r' = r_text SampleRuns.updated_recipe ∧
    r_cooking_time r' = r_cooking_time SampleRuns.updated_recipe ∧
    r_author r' = r_author SampleRuns.updated_recipe ∧
    r_last_editor r' = r_last_editor SampleRuns.updated_recipe ∧
    (vd_image SampleUpdate.payload = None →
     r_image r' = r_image SampleRuns.updated_recipe) ∧
    RecipeViewSerializer.get_ingredients db'' r'
    = RecipeViewSerializer.get_ingredients SampleRuns.updated_db
        SampleRuns.updated_recipe ∧
    tags_of db'' (r_id r') = tags_of SampleRuns.updated_db
                               (r_id SampleRuns.updated_recipe).
Proof.
  apply (update_again_shows_same (Sample.ctx (Authenticated 2)) Sample.db
           SampleRuns.updated_db Sample.pancakes SampleRuns.updated_recipe
           SampleUpdate.payload).
  vm_compute. reflexivity.
Defined.

(** ** Favourites and shopping lists *)

Lemma create_of_found (model : JoinModel) (ctx : Context) (db db' : Database)
  (row : JoinRow) :
  FavouriteListSerializer.create_of model ctx db = Ok (db', row) →
  ∃ r, find (fun x => Nat.eqb (r_id x) (jr_recipe row)) (recipes db) = Some r ∧
       r_id r = jr_recipe row ∧
       kwargs_recipe_id (request ctx) = Some (r_id r) ∧
       user (request ctx) = Authenticated (jr_user row) ∧
       db' = set_objects model db (objects model db ++ [row]).
Proof.
  unfold FavouriteListSerializer.create_of, get_recipe_or_404, objects_create.
  destruct (kwargs_recipe_id (request ctx)) as [k|]; [|discriminate].
  destruct (find _ (recipes db)) as [r|] eqn:Hfind; simpl; [|discriminate].
  destruct (user (request ctx)) as [|pk]; simpl; [discriminate|].
  destruct (exists_join _ pk (r_id r)); [discriminate|].
  intros [= <- <-]. simpl. exists r.
  pose proof (find_some _ _ Hfind) as [_ Heq%Nat.eqb_eq].
  rewrite Heq. by repeat split.
Qed.

Lemma exists_join_app (rows : list JoinRow) (row : JoinRow) (usr recipe : nat) :
  exists_join (rows ++ [row]) usr recipe
  = exists_join rows usr recipe
    || (Nat.eqb (jr_user row) usr && Nat.eqb (jr_recipe row) recipe).
Proof.
  unfold exists_join. rewrite existsb_app. simpl. by rewrite orb_false_r.
Qed.

(** X20.  After a successful favourite [create], the recipe of the path
    renders with [is_favorited] true for the viewer who made the request,
    and its [is_in_shopping_cart] is what it was. *)
Theorem favourite_create_sets_flag (ctx : Context) (db db' : Database)
  (row : JoinRow) (obj : Recipe) :
  FavouriteListSerializer.create ctx db = Ok (db', row) →
  kwargs_recipe_id (request ctx) = Some (r_id obj) →
  RecipeViewSerializer.get_is_favorited ctx db' obj = true ∧
  RecipeViewSerializer.get_is_in_shopping_cart ctx db' obj
  = RecipeViewSerializer.get_is_in_shopping_cart ctx db obj.
Proof.
  intros Hc Hkey.
  apply create_of_found in Hc as (r & _ & Hid & Hk & Huser & ->).
  unfold RecipeViewSerializer.get_is_favorited,
    RecipeViewSerializer.get_is_in_shopping_cart.
  rewrite Huser. simpl. split; [|done].
  rewrite exists_join_app.
  assert (jr_recipe row = r_id obj) as -> by congruence.
  by rewrite !Nat.eqb_refl, orb_true_r.
Qed.

Lemma favourite_create_sets_flag_witness :
  RecipeViewSerializer.get_is_favorited SampleRuns.alice_porridge
    SampleRuns.favourited_db Sample.porridge = true ∧
  RecipeViewSerializer.get_is_in_shopping_cart SampleRuns.alice_porridge
    SampleRuns.favourited_db Sample.porridge
  = RecipeViewSerializer.get_is_in_shopping_cart SampleRuns.alice_porridge
      Sample.db Sample.porridge.
Proof.
  apply (favourite_create_sets_flag SampleRuns.alice_porridge Sample.db
           SampleRuns.favourited_db SampleRuns.alice_porridge_row Sample.porridge);
    reflexivity.
Defined.

(** X21.  After a successful shopping-list [create], the recipe of the path
    renders with [is_in_shopping_cart] true for the viewer who made the
    request, and its [is_favorited] is what it was. *)
Theorem shopping_create_sets_flag (ctx : Context) (db db' : Database)
  (row : JoinRow) (obj : Recipe) :
  ShoppingListSerializer.create ctx db = Ok (db', row) →
  kwargs_recipe_id (request ctx) = Some (r_id obj) →
  RecipeViewSerializer.get_is_in_shopping_cart ctx db' obj = true ∧
  RecipeViewSerializer.get_is_favorited ctx db' obj
  = RecipeViewSerializer.get_is_favorited ctx db obj.
Proof.
  intros Hc Hkey.
  apply create_of_found in Hc as (r & _ & Hid & Hk & Huser & ->).
  unfold RecipeViewSerializer.get_is_favorited,
    RecipeViewSerializer.get_is_in_shopping_cart.
  rewrite Huser. simpl. split; [|done].
  rewrite exists_join_app.
  assert (jr_recipe row = r_id obj) as -> by congruence.
  by rewrite !Nat.eqb_refl, orb_true_r.
Qed.

Lemma shopping_create_sets_flag_witness :
  RecipeViewSerializer.get_is_in_shopping_cart SampleRuns.alice_porridge
    SampleRuns.carted_db Sample.porridge = true ∧
  RecipeViewSerializer.get_is_favorited SampleRuns.alice_porridge
    SampleRuns.carted_db Sample.porridge
  = RecipeViewSerializer.get_is_favorited SampleRuns.alice_porridge
      Sample.db Sample.porridge.
Proof.
  apply (shopping_create_sets_flag SampleRuns.alice_porridge Sample.db
           SampleRuns.carted_db SampleRuns.alice_porridge_row Sample.porridge);
    reflexivity.
Defined.

(** X22.  What a successful membership [create] returns renders, on the
    storage it leaves, as the minimal representation of the stored recipe
    that the path parameter names; this holds for favourites and for the
    shopping list. *)
Theorem membership_create_then_render (model : JoinModel) (ctx : Context)
  (db db' : Database) (row : JoinRow) :
  FavouriteListSerializer.create_of model ctx db = Ok (db', row) →
  ∃ r, r ∈ recipes db ∧ kwargs_recipe_id (request ctx) = Some (r_id r) ∧
       FavouriteListSerializer.to_representation db' row
       = Ok (RecipeReadOnlySerializer.data r).
Proof.
  intros Hc. apply create_of_found in Hc as (r & Hfind & Hid & Hk & _ & ->).
  exists r. repeat split; [|done|].
  - apply find_some in Hfind as [Hin _]. by apply list_elem_of_In.
  - unfold FavouriteListSerializer.to_representation.
    replace (recipes (set_objects model db _)) with (recipes db) by by destruct model.
    by rewrite Hfind.
Qed.

Lemma membership_create_then_render_witness :
  ∃ r, r ∈ recipes Sample.db ∧
       kwargs_recipe_id (request SampleRuns.alice_porridge) = Some (r_id r) ∧
       FavouriteListSerializer.to_representation SampleRuns.carted_db
         SampleRuns.alice_porridge_row
       = Ok (RecipeReadOnlySerializer.data r).
Proof.
  apply (membership_create_then_render ShoppingList SampleRuns.alice_porridge
           Sample.db SampleRuns.carted_db SampleRuns.alice_porridge_row).
  reflexivity.
Defined.

(** X23.  A successful membership [create] changes the flags of nobody
    else: for another viewer, or for another recipe, [is_favorited] and
    [is_in_shopping_cart] render as before; and the recipes, their rows and
    the subscriptions stay as they were. *)
Theorem membership_create_frame (model : JoinModel) (ctx ctx2 : Context)
  (db db' : Database) (row : JoinRow) (obj : Recipe) :
  FavouriteListSerializer.create_of model ctx db = Ok (db', row) →
  user (request ctx2) ≠ user (request ctx) ∨ r_id obj ≠ jr_recipe row →
  RecipeViewSerializer.get_is_favorited ctx2 db' obj
  = RecipeViewSerializer.get_is_favorited ctx2 db obj ∧
  RecipeViewSerializer.get_is_in_shopping_cart ctx2 db' obj
  = RecipeViewSerializer.get_is_in_shopping_cart ctx2 db obj ∧
  recipes db' = recipes db ∧ recipe_tags db' = recipe_tags db ∧
  ingredient_amounts db' = ingredient_amounts db ∧
  subscriptions db' = subscriptions db.
Proof.
  intros Hc Hother.
  apply create_of_found in Hc as (r & _ & _ & _ & Huser & ->).
  unfold RecipeViewSerializer.get_is_favorited,
    RecipeViewSerializer.get_is_in_shopping_cart.
  assert (Hmiss : ∀ usr, user (request ctx2) = Authenticated usr →
            Nat.eqb (jr_user row) usr && Nat.eqb (jr_recipe row) (r_id obj) = false).
  { intros usr Husr. apply andb_false_iff.
    destruct Hother as [Hu|Hr].
    - left. apply Nat.eqb_neq. intros <-. apply Hu. congruence.
    - right. apply Nat.eqb_neq. congruence. }
  destruct (user (request ctx2)) as [|usr] eqn:Hview;
    destruct model; simpl; repeat apply conj; try done.
  all: by rewrite exists_join_app, (Hmiss usr eq_refl), orb_false_r.
Qed.

Lemma membership_create_frame_witness :
  RecipeViewSerializer.get_is_favorited (Sample.ctx (Authenticated 2))
    SampleRuns.favourited_db Sample.porridge
  = RecipeViewSerializer.get_is_favorited (Sample.ctx (Authenticated 2))
      Sample.db Sample.porridge ∧
  RecipeViewSerializer.get_is_in_shopping_cart (Sample.ctx (Authenticated 2))
    SampleRuns.favourited_db Sample.porridge
  = RecipeViewSerializer.get_is_in_shopping_cart (Sample.ctx (Authenticated 2))
      Sample.db Sample.porridge ∧
  recipes SampleRuns.favourited_db = recipes Sample.db ∧
  recipe_tags SampleRuns.favourited_db = recipe_tags Sample.db ∧
  ingredient_amounts SampleRuns.favourited_db = ingredient_amounts Sample.db ∧
  subscriptions SampleRuns.favourited_db = subscriptions Sample.db.
Proof.
  apply (membership_create_frame FavouriteList SampleRuns.alice_porridge
           (Sample.ctx (Authenticated 2)) Sample.db SampleRuns.favourited_db
           SampleRuns.alice_porridge_row Sample.porridge).
  - reflexivity.
  - left. discriminate.
Defined.

(** ** Subscriptions *)

Lemma find_user_none (db : Database) (k : nat) :
  (∀ u, u ∈ users db → u_id u ≠ k) →
  find (fun u => Nat.eqb (u_id u) k) (users db) = None.
Proof.
  intros Hnone. destruct (find _ (users db)) as [u|] eqn:Hfind; [|done].
  apply find_some in Hfind as [Hin Heq%Nat.eqb_eq].
  apply list_elem_of_In in Hin. by destruct (Hnone u Hin).
Qed.

(** X24.  When the author id of the path is the id of no stored user,
    [get_user_and_author] and [validate] fail with not-found, for every
    viewer, anonymous or not, and before the self-subscription and the
    duplicate checks. *)
Theorem subscription_author_not_found (ctx : Context) (db : Database) :
  (∀ u, u ∈ users db → kwargs_author_id (request ctx) ≠ Some (u_id u)) →
  SubscriptionSerializer.get_user_and_author ctx db = Raise Http404 ∧
  SubscriptionSerializer.validate ctx db = Raise Http404.
Proof.
  intros Hnone.
  assert (Hlookup : get_user_or_404 db (kwargs_author_id (request ctx)) = Raise Http404).
  { unfold get_user_or_404.
    destruct (kwargs_author_id (request ctx)) as [k|]; [|done].
    rewrite find_user_none; [done|].
    intros u Hin Heq. apply (Hnone u Hin). by rewrite Heq. }
  unfold SubscriptionSerializer.validate, SubscriptionSerializer.get_user_and_author.
  by rewrite Hlookup.
Qed.

Lemma subscription_author_not_found_witness :
  SubscriptionSerializer.get_user_and_author (Sample.ctx_author AnonymousUser 7)
    Sample.db = Raise Http404 ∧
  SubscriptionSerializer.validate (Sample.ctx_author AnonymousUser 7) Sample.db
  = Raise Http404.
Proof.
  apply (subscription_author_not_found (Sample.ctx_author AnonymousUser 7) Sample.db).
  intros u Hin Heq. injection Heq as Heq.
  repeat (apply elem_of_cons in Hin as [->|Hin]; [discriminate Heq|]).
  by apply elem_of_nil in Hin.
Defined.

(** X25.  What [validate] accepts: when it returns a pair, the pair is the
    request's user and the stored user that the author id of the path
    names; the user is authenticated, is not the author, and no
    Subscription row (user, author) is stored. *)
Theorem subscription_validate_sound (ctx : Context) (db : Database)
  (usr : RequestUser) (author : User) :
  SubscriptionSerializer.validate ctx db = Ok (usr, author) →
  usr = user (request ctx) ∧
  author ∈ users db ∧
  kwargs_author_id (request ctx) = Some (u_id author) ∧
  ∃ viewer, usr = Authenticated viewer ∧ viewer ≠ u_id author ∧
            {| s_user := viewer; s_author := u_id author |} ∉ subscriptions db.
Proof.
  unfold SubscriptionSerializer.validate, SubscriptionSerializer.get_user_and_author,
    get_user_or_404.
  destruct (kwargs_author_id (request ctx)) as [k|]; simpl; [|discriminate].
  destruct (find _ (users db)) as [a|] eqn:Hfind; simpl; [|discriminate].
  apply find_some in Hfind as [Hin Heq%Nat.eqb_eq].
  destruct (user (request ctx)) as [|viewer]; simpl; [discriminate|].
  destruct (Nat.eqb_spec viewer (u_id a)) as [Hsame|Hne]; [discriminate|].
  destruct (exists_subscription db viewer (u_id a)) eqn:Hex; [discriminate|].
  intros [= <- <-]. repeat split; [by apply list_elem_of_In|by f_equal|].
  exists viewer. repeat split; [done|].
  rewrite <- exists_subscription_elem. by rewrite Hex.
Qed.

Lemma subscription_validate_sound_witness :
  Authenticated 1 = user (request (Sample.ctx_author (Authenticated 1) 2)) ∧
  Sample.bob ∈ users Sample.db ∧
  kwargs_author_id (request (Sample.ctx_author (Authenticated 1) 2))
  = Some (u_id Sample.bob) ∧
  ∃ viewer, Authenticated 1 = Authenticated viewer ∧ viewer ≠ u_id Sample.bob ∧
            {| s_user := viewer; s_author := u_id Sample.bob |} ∉ subscriptions Sample.db.
Proof.
  apply (subscription_validate_sound (Sample.ctx_author (Authenticated 1) 2)
           Sample.db (Authenticated 1) Sample.bob).
  reflexivity.
Defined.

Lemma get_recipes_cases `{PythonInt} (ctx : Context) (db : Database)
  (obj : Subscription) :
  let all := RecipeReadOnlySerializer.data <$> foodgram_recipe_authors db (s_author obj) in
  (∃ n, py_int (query_recipes_limit (request ctx)) = Ok n ∧ 0 < n ∧
        n ≤ col_max (limit_bound (limits db)) ∧
        SubscriptionSerializer.get_recipes ctx db obj = Ok (take (Z.to_nat n) all)) ∨
  (∃ e, SubscriptionSerializer.get_recipes ctx db obj = Raise e) ∨
  SubscriptionSerializer.get_recipes ctx db obj = Ok all.
Proof.
  intros all. unfold SubscriptionSerializer.get_recipes.
  destruct (py_int _) as [n|e] eqn:Hint; simpl.
  - destruct (Z.eqb_spec n 0) as [->|Hnz]; simpl; [by right; right|].
    unfold slice_to. destruct (Z.ltb_spec n 0) as [Hneg|Hpos]; simpl.
    + right. left. by eexists.
    + destruct (Z.ltb_spec (col_max (limit_bound (limits db))) n) as [Hbig|Hfit];
        simpl.
      * right. left. by eexists.
      * left. exists n. repeat split; [lia|lia|]. by rewrite fmap_take.
  - right. right.
    destruct (py_int_raises _ _ Hint) as [->|[msg ->]]; reflexivity.
Qed.

(** X26.  Whenever the recipes of a subscription are returned, they are the
    first recipes of the author in storage order, each in its minimal
    representation, and never more than [recipes_count] of them. *)
Theorem get_recipes_prefix `{PythonInt} (ctx : Context) (db : Database)
  (obj : Subscription) (listing : list RecipeReadOnlyData) :
  SubscriptionSerializer.get_recipes ctx db obj = Ok listing →
  listing `prefix_of`
    (RecipeReadOnlySerializer.data <$> foodgram_recipe_authors db (s_author obj)) ∧
  (length listing ≤ SubscriptionSerializer.get_recipes_count db obj)%nat.
Proof.
  intros Hok. unfold SubscriptionSerializer.get_recipes_count.
  destruct (get_recipes_cases ctx db obj)
    as [(n & _ & _ & _ & Hrun)|[(e & Hrun)|Hrun]];
    rewrite Hrun in Hok; [|discriminate|]; injection Hok as <-.
  - split; [apply prefix_take|].
    rewrite length_take, length_fmap. lia.
  - split; [done|]. by rewrite length_fmap.
Qed.

Lemma get_recipes_prefix_witness :
  [RecipeReadOnlySerializer.data Sample.pancakes] `prefix_of`
    (RecipeReadOnlySerializer.data
       <$> foodgram_recipe_authors Sample.db (s_author Sample.bob_follows_alice)) ∧
  (length [RecipeReadOnlySerializer.data Sample.pancakes]
   ≤ SubscriptionSerializer.get_recipes_count Sample.db Sample.bob_follows_alice)%nat.
Proof.
  apply (@get_recipes_prefix Sample.int (Sample.ctx_limit (Authenticated 2) "1")
           Sample.db Sample.bob_follows_alice).
  reflexivity.
Defined.





(** X29.  A rendered subscription shows the author, not the subscriber: its
    identity fields are those of the stored user the row points to, its
    [recipes_count] is the number of recipes that user authored, whatever
    limit cuts the listing, and the listing is never longer than the
    count.  It does not render when the author is not stored. *)
Theorem subscription_data_fields `{PythonInt} (ctx : Context) (db : Database)
  (obj : Subscription) (sd : SubscriptionData) :
  SubscriptionSerializer.data ctx db obj = Ok sd →
  sd_id sd = s_author obj ∧
  (∃ a, a ∈ users db ∧ u_id a = s_author obj ∧
        sd_email sd = u_email a ∧ sd_username sd = u_username a ∧
        sd_first_name sd = u_first_name a ∧ sd_last_name sd = u_last_name a) ∧
  sd_recipes_count sd = length (foodgram_recipe_authors db (s_author obj)) ∧
  (length (sd_recipes sd) ≤ sd_recipes_count sd)%nat ∧
  (obj ∈ subscriptions db → sd_is_subscribed sd = true).
Proof.
  unfold SubscriptionSerializer.data.
  destruct (find _ (users db)) as [a|] eqn:Hfind; simpl; [|discriminate].
  apply find_some in Hfind as [Hin Heq%Nat.eqb_eq].
  destruct (SubscriptionSerializer.get_recipes ctx db obj) as [listing|e] eqn:Hrun;
    simpl; [|discriminate].
  intros [= <-]. simpl. repeat apply conj; try done.
  - exists a. by rewrite list_elem_of_In.
  - destruct (get_recipes_cases ctx db obj)
      as [(n & _ & _ & _ & Hrun')|[(e & Hrun')|Hrun']];
      rewrite Hrun' in Hrun; [|discriminate|]; injection Hrun as <-;
      unfold SubscriptionSerializer.get_recipes_count.
    + rewrite length_take, length_fmap. lia.
    + by rewrite length_fmap.
  - intros Hstored. unfold SubscriptionSerializer.get_is_subscribed.
    apply exists_subscription_elem. by destruct obj.
Qed.

Lemma subscription_data_fields_witness :
  ∃ sd, @SubscriptionSerializer.data Sample.int
          (Sample.ctx_limit (Authenticated 2) "1")
          Sample.db Sample.bob_follows_alice = Ok sd ∧
        sd_id sd = 1%nat ∧ sd_username sd = "alice" ∧
        sd_recipes_count sd = 2%nat ∧ length (sd_recipes sd) = 1%nat ∧
        sd_is_subscribed sd = true.
Proof.
  eexists. split; [reflexivity|].
  destruct (@subscription_data_fields Sample.int
              (Sample.ctx_limit (Authenticated 2) "1")
              Sample.db Sample.bob_follows_alice _ eq_refl)
    as (Hid & _ & Hcount & _ & Hflag).
  split; [exact Hid|]. split; [reflexivity|]. split; [exact Hcount|].
  split; [reflexivity|]. apply Hflag. left.
Defined.

(** ** Witnesses of the case tables *)

Lemma validate_ingredients_cases_witness :
  RecipeCreateUpdateSerializer.validate_ingredients
    [{| ie_id := Sample.flour; ie_amount := 0 |}]
  = Raise (ValidationError "Количество должно быть больше нуля.") ∧
  RecipeCreateUpdateSerializer.validate_ingredients
    [{| ie_id := Sample.flour; ie_amount := 0 |};
     {| ie_id := Sample.flour; ie_amount := 2 |}]
  = Raise (ValidationError "Ингредиенты должы быть уникальными.").
Proof.
  split.
  - apply (validate_ingredients_cases [{| ie_id := Sample.flour; ie_amount := 0 |}]).
    + discriminate.
    + apply NoDup_singleton.
    + intros Hall. apply Forall_cons in Hall as [Hpos _]. simpl in Hpos. lia.
  - apply (validate_ingredients_cases
             [{| ie_id := Sample.flour; ie_amount := 0 |};
              {| ie_id := Sample.flour; ie_amount := 2 |}]).
    + discriminate.
    + simpl. intros Hnd. apply NoDup_cons in Hnd as [Hnotin _]. apply Hnotin. left.
Defined.

Lemma validate_tags_cases_witness :
  RecipeCreateUpdateSerializer.validate_tags [Sample.dinner; Sample.dinner]
  = Raise (ValidationError "Теги должны быть уникальными.").
Proof.
  apply (validate_tags_cases [Sample.dinner; Sample.dinner]).
  - discriminate.
  - simpl. intros Hnd. apply NoDup_cons in Hnd as [Hnotin _]. apply Hnotin. left.
Defined.

Lemma validate_cooking_time_cases_witness :
  RecipeCreateUpdateSerializer.validate_cooking_time (PyStr "ten")
  = Raise (ValidationError "Неверный формат, ожидается целое позитивное число.") ∧
  RecipeCreateUpdateSerializer.validate_cooking_time (PyBool false)
  = Raise (ValidationError "Минимальное время готовки должно быть больше нуля").
Proof.
  split.
  - apply (validate_cooking_time_cases (PyStr "ten")). reflexivity.
  - apply (proj1 (proj2 (proj2 (validate_cooking_time_cases (PyBool false)))) 0);
      [reflexivity|lia].
Defined.

(** ** The tags a write leaves behind *)

(** X30.  After a successful [create], and after a successful [update]
    whose tag list is not empty, the tags the recipe renders with are the
    stored tags whose id the payload names, in the order of the Tag table:
    ids of the payload that match no stored tag render nothing, and the
    order and repetitions of the payload do not show. *)
Theorem written_tags_render (ctx : Context) (db db' : Database)
  (instance r : Recipe) (vd : ValidatedData) :
  RecipeCreateUpdateSerializer.create db vd = Ok (db', r) ∨
  (RecipeCreateUpdateSerializer.update ctx db instance vd = Ok (db', r) ∧
   vd_tags vd ≠ Some []) →
  tags_of db' (r_id r)
  = filter (fun t => t_id t ∈ t_id <$> default [] (vd_tags vd)) (tags db).
Proof.
  intros [Hc|[Hu Hne]]; unfold tags_of.
  - apply create_shape in Hc
      as (ings & ts & image & a & ct & _ & -> & _ & _ & _ & Hid & _ & _ & _ & _ & _ & ->).
    simpl. apply list_filter_iff. intros t. apply tags_set_ids.
  - apply update_shape in Hu
      as (editor & ts & ings & author & _ & Hts & _ & _ & _ & _ & Htag & _ & _ & _
          & _ & _ & _ & Htags & _).
    rewrite Htag, Hts. simpl. apply list_filter_iff. intros t.
    rewrite elem_of_recipe_tag_ids, Htags.
    rewrite bool_decide_eq_false_2 by congruence.
    rewrite <- elem_of_recipe_tag_ids. apply tags_set_ids.
Qed.

Lemma written_tags_render_witness :
  tags_of SampleRuns.updated_db (r_id SampleRuns.updated_recipe)
  = filter (fun t => t_id t ∈ t_id <$> default [] (vd_tags SampleUpdate.payload))
           (tags Sample.db).
Proof.
  apply (written_tags_render (Sample.ctx (Authenticated 2)) Sample.db
           SampleRuns.updated_db Sample.pancakes SampleRuns.updated_recipe
           SampleUpdate.payload).
  right. split; [vm_compute; reflexivity|discriminate].
Defined.
